(** * AutoLabMate: the plan compiler, the sandbox runner and the execution tracker

    A shallow embedding of [backend/agents/executor.py], [backend/agents/monitor.py]
    and of the background task of [backend/main.py], with the properties of the
    design document stated over it, followed by the mock paths of
    [backend/agents/planner.py] and [backend/tools/vector_store.py] and further
    properties of all four.

    Python values are a small inductive type, dictionaries keep their insertion
    order, raising is a [result], and everything the process and the file system
    decide is read from an explicit [world]. *)

From Stdlib Require Import ZArith QArith Ascii.
From stdpp Require Import base option list strings pretty gmap.

Local Open Scope stdpp_scope.
Set Warnings "-register-all".

(* ===================================================================== *)
(** * Python values *)
(* ===================================================================== *)

(** Hashable scalars, the keys of a [dict]. *)
Inductive pykey : Type :=
  | KNone
  | KBool (b : bool)
  | KInt (z : Z)
  | KStr (s : string).

Global Instance pykey_eq_dec : EqDecision pykey.
Proof. solve_decision. Defined.

(** The JSON-shaped values that steps, parameters and overlays are made of.
    Strings are sequences of code points below 256; floats do not occur in the
    positions the compiler reads and are left out. *)
Inductive pyval : Type :=
  | VNone
  | VBool (b : bool)
  | VInt (z : Z)
  | VStr (s : string)
  | VList (l : list pyval)
  | VDict (d : list (pykey * pyval)).

Abbreviation pydict := (list (pykey * pyval)).

(** Exceptions, by class. [OtherError] stands for what the operating system or
    a library raises, with the text [str(e)] gives. *)
Inductive exn : Type :=
  | AttributeError
  | TypeError
  | KeyError
  | IndexError
  | ZeroDivisionError
  | NameError
  | TimeoutExpired
  | OtherError (msg : string).

Inductive result (A : Type) : Type :=
  | Ok (a : A)
  | Raise (e : exn).
Arguments Ok {A} a.
Arguments Raise {A} e.

Global Instance result_ret : MRet result := fun A a => Ok a.
Global Instance result_bind : MBind result := fun A B k m =>
  match m with
  | Ok a => k a
  | Raise e => Raise e
  end.

(** [try: m except Exception as e: h e] *)
Definition try_except {A} (m : result A) (h : exn → result A) : result A :=
  match m with
  | Ok a => Ok a
  | Raise e => h e
  end.

Fixpoint mapM {A B} (f : A → result B) (l : list A) : result (list B) :=
  match l with
  | [] => Ok []
  | x :: r => y ← f x; ys ← mapM f r; Ok (y :: ys)
  end.

(* --------------------------------------------------------------------- *)
(** ** Equality and hashing of keys *)

(** [True == 1] and [hash(True) == hash(1)]: a bool key and an int key of the
    same numeric value are the same key. *)
Definition key_num (k : pykey) : option Z :=
  match k with
  | KBool b => Some (Z.b2z b)
  | KInt z => Some z
  | _ => None
  end.

Definition key_eqb (k1 k2 : pykey) : bool :=
  match k1, k2 with
  | KNone, KNone => true
  | KStr s, KStr t => bool_decide (s = t)
  | _, _ =>
      match key_num k1, key_num k2 with
      | Some a, Some b => (a =? b)%Z
      | _, _ => false
      end
  end.

(** The key a value hashes to; lists and dicts are unhashable. *)
Definition to_key (v : pyval) : result pykey :=
  match v with
  | VNone => Ok KNone
  | VBool b => Ok (KBool b)
  | VInt z => Ok (KInt z)
  | VStr s => Ok (KStr s)
  | VList _ | VDict _ => Raise TypeError
  end.

Definition of_key (k : pykey) : pyval :=
  match k with
  | KNone => VNone
  | KBool b => VBool b
  | KInt z => VInt z
  | KStr s => VStr s
  end.

(* --------------------------------------------------------------------- *)
(** ** Dictionaries *)

Fixpoint dict_lookup (k : pykey) (d : pydict) : option pyval :=
  match d with
  | [] => None
  | (k', v) :: r => if key_eqb k k' then Some v else dict_lookup k r
  end.

(** [d[k] = v]: an existing key keeps its position, a new one goes last. *)
Fixpoint dict_set (k : pykey) (v : pyval) (d : pydict) : pydict :=
  match d with
  | [] => [(k, v)]
  | (k', v') :: r =>
      if key_eqb k k' then (k', v) :: r else (k', v') :: dict_set k v r
  end.

(** [{**a, **b}] *)
Definition dict_merge (a b : pydict) : pydict :=
  fold_left (fun acc kv => dict_set kv.1 kv.2 acc) b a.

(** [d.get(k)] and [d.get(k, default)] for a string key *)
Definition dict_get (k : string) (d : pydict) : pyval :=
  default VNone (dict_lookup (KStr k) d).

Definition dict_get_or (k : string) (dflt : pyval) (d : pydict) : pyval :=
  default dflt (dict_lookup (KStr k) d).

(** [v.get(k, default)] on an arbitrary value: only a dict has the method. *)
Definition py_get (v : pyval) (k : string) (dflt : pyval) : result pyval :=
  match v with
  | VDict d => Ok (dict_get_or k dflt d)
  | _ => Raise AttributeError
  end.

(* --------------------------------------------------------------------- *)
(** ** Truth, equality, membership, subscription *)

Definition py_truthy (v : pyval) : bool :=
  match v with
  | VNone => false
  | VBool b => b
  | VInt z => negb (z =? 0)%Z
  | VStr s => negb (bool_decide (s = ""))
  | VList l => negb (bool_decide (length l = 0))
  | VDict d => negb (bool_decide (length d = 0))
  end.

Definition val_num (v : pyval) : option Z :=
  match v with
  | VBool b => Some (Z.b2z b)
  | VInt z => Some z
  | _ => None
  end.

(** [a == b] *)
Fixpoint py_eqb (a b : pyval) {struct a} : bool :=
  match a, b with
  | VNone, VNone => true
  | VStr s, VStr t => bool_decide (s = t)
  | VList l1, VList l2 =>
      (fix go (l1 l2 : list pyval) {struct l1} : bool :=
         match l1, l2 with
         | [], [] => true
         | x :: r1, y :: r2 => py_eqb x y && go r1 r2
         | _, _ => false
         end) l1 l2
  | VDict d1, VDict d2 =>
      bool_decide (length d1 = length d2) &&
      (fix go (d : pydict) {struct d} : bool :=
         match d with
         | [] => true
         | (k, x) :: r =>
             match dict_lookup k d2 with
             | Some y => py_eqb x y && go r
             | None => false
             end
         end) d1
  | _, _ =>
      match val_num a, val_num b with
      | Some x, Some y => (x =? y)%Z
      | _, _ => false
      end
  end.

Fixpoint is_substring (t s : string) : bool :=
  String.prefix t s ||
  match s with
  | EmptyString => false
  | String _ r => is_substring t r
  end.

(** [x in c] *)
Definition py_contains (x c : pyval) : result bool :=
  match c with
  | VDict d => k ← to_key x; Ok (bool_decide (is_Some (dict_lookup k d)))
  | VList l => Ok (existsb (py_eqb x) l)
  | VStr s =>
      match x with
      | VStr t => Ok (is_substring t s)
      | _ => Raise TypeError
      end
  | _ => Raise TypeError
  end.

(** [c[i]] *)
Definition py_getitem (c i : pyval) : result pyval :=
  match c with
  | VDict d =>
      k ← to_key i;
      match dict_lookup k d with
      | Some v => Ok v
      | None => Raise KeyError
      end
  | VList l =>
      match val_num i with
      | Some z =>
          let n := Z.of_nat (length l) in
          let j := if (z <? 0)%Z then (z + n)%Z else z in
          if ((0 <=? j) && (j <? n))%Z
          then match l !! Z.to_nat j with
               | Some v => Ok v
               | None => Raise IndexError
               end
          else Raise IndexError
      | None => Raise TypeError
      end
  | VStr s =>
      match val_num i with
      | Some z =>
          let n := Z.of_nat (String.length s) in
          let j := if (z <? 0)%Z then (z + n)%Z else z in
          if ((0 <=? j) && (j <? n))%Z
          then match String.get (Z.to_nat j) s with
               | Some ch => Ok (VStr (String ch ""))
               | None => Raise IndexError
               end
          else Raise IndexError
      | None => Raise TypeError
      end
  | _ => Raise TypeError
  end.

(* --------------------------------------------------------------------- *)
(** ** [str] and [repr] *)

Definition nl : string := String (ascii_of_nat 10) "".
Definition dq : string := String (ascii_of_nat 34) "".
Definition sq : string := "'".
Definition bs : string := String (ascii_of_nat 92) "".

Fixpoint join (sep : string) (l : list string) : string :=
  match l with
  | [] => ""
  | [x] => x
  | x :: r => x +:+ sep +:+ join sep r
  end.

(** A template of several lines, as a triple-quoted literal has them. *)
Definition lines (l : list string) : string := join nl l.

Fixpoint cat (l : list string) : string :=
  match l with
  | [] => ""
  | x :: r => x +:+ cat r
  end.

Definition hex_digit (n : nat) : ascii :=
  ascii_of_nat (if Nat.ltb n 10 then 48 + n else 87 + n).

Definition hex_escape (n : nat) : string :=
  bs +:+ "x" +:+ String (hex_digit (n / 16)) (String (hex_digit (n mod 16)) "").

Fixpoint string_has (c : ascii) (s : string) : bool :=
  match s with
  | EmptyString => false
  | String c' r => bool_decide (c = c') || string_has c r
  end.

(** Code points that [repr] writes as they are: printable ASCII and the
    printable part of Latin-1. *)
Definition printable (n : nat) : bool :=
  (Nat.leb 32 n && Nat.ltb n 127) ||
  (Nat.ltb 160 n && negb (Nat.eqb n 173)).

Definition repr_char (quote : ascii) (c : ascii) : string :=
  let n := nat_of_ascii c in
  if bool_decide (c = quote) || Nat.eqb n 92 then bs +:+ String c ""
  else if Nat.eqb n 9 then bs +:+ "t"
  else if Nat.eqb n 10 then bs +:+ "n"
  else if Nat.eqb n 13 then bs +:+ "r"
  else if printable n then String c ""
  else hex_escape n.

Fixpoint repr_chars (quote : ascii) (s : string) : string :=
  match s with
  | EmptyString => ""
  | String c r => repr_char quote c +:+ repr_chars quote r
  end.

(** [repr(s)]: single quotes, unless the text has a single quote and no
    double quote. *)
Definition repr_str (s : string) : string :=
  let quote : ascii :=
    if string_has "'" s && negb (string_has (ascii_of_nat 34) s)
    then ascii_of_nat 34 else "'"%char in
  String quote (repr_chars quote s) +:+ String quote "".

Definition str_bool (b : bool) : string := if b then "True" else "False".

Definition key_repr (k : pykey) : string :=
  match k with
  | KNone => "None"
  | KBool b => str_bool b
  | KInt z => pretty z
  | KStr s => repr_str s
  end.

Fixpoint py_repr (v : pyval) : string :=
  match v with
  | VNone => "None"
  | VBool b => str_bool b
  | VInt z => pretty z
  | VStr s => repr_str s
  | VList l => "[" +:+ join ", " (map py_repr l) +:+ "]"
  | VDict d =>
      "{" +:+ join ", " (map (fun kv => key_repr kv.1 +:+ ": " +:+ py_repr kv.2) d) +:+ "}"
  end.

(** What an f-string writes for [{v}]. *)
Definition py_str (v : pyval) : string :=
  match v with
  | VStr s => s
  | _ => py_repr v
  end.

(** [s.replace(a, '')] for a one-character [a] *)
Fixpoint remove_char (a : ascii) (s : string) : string :=
  match s with
  | EmptyString => ""
  | String c r => if bool_decide (c = a) then remove_char a r else String c (remove_char a r)
  end.

(* ===================================================================== *)
(** * The executor agent: plan compilation *)
(* ===================================================================== *)

Module Executor.

(** A notebook cell, reduced to its type and its source text. *)
Inductive cell : Type :=
  | Markdown (source : string)
  | Code (source : string).

Definition cell_source (c : cell) : string :=
  match c with
  | Markdown s | Code s => s
  end.

Definition is_code (c : cell) : bool :=
  match c with
  | Code _ => true
  | Markdown _ => false
  end.

(** [notebook.cells] *)
Abbreviation notebook := (list cell).

(* --------------------------------------------------------------------- *)
(** ** [_generate_step_code] *)

(** The names bound at the top level of [executor.py]: its imports, the logger
    and the class. *)
Definition module_globals : list string :=
  ["logging"; "os"; "json"; "subprocess"; "List"; "Dict"; "Any"; "Optional"; "Path";
   "pd"; "nbformat"; "PythonExporter"; "time"; "logger"; "ExecutorAgent"].

(** ['name' in globals()] *)
Definition in_globals (name : string) : bool := bool_decide (name ∈ module_globals).

Definition compute_stats_code (columns : option string) : string :=
  match columns with
  | Some cols =>
      lines ["# Compute descriptive statistics";
             cat ["stats_df = df["; cols; "].describe()"];
             "print(stats_df)"]
  | None =>
      lines ["# Compute descriptive statistics";
             "stats_df = df.describe()";
             "print(stats_df)"]
  end.

Definition histogram_code (column : string) : string :=
  lines ["# Create histogram";
         "plt.figure(figsize=(10, 6))";
         cat ["plt.hist(df['"; column; "'], bins=30, edgecolor='black')"];
         cat ["plt.title(f'Distribution of "; column; "')"];
         "plt.xlabel(column)";
         "plt.ylabel('Frequency')";
         "plt.grid(True, alpha=0.3)";
         cat ["plt.savefig(f'plots/"; column; "_histogram.png', dpi=300, bbox_inches='tight')"];
         "plt.show()"].

Definition scatter_code (x_col y_col : string) : string :=
  lines ["# Create scatter plot";
         "plt.figure(figsize=(10, 6))";
         cat ["plt.scatter(df['"; x_col; "'], df['"; y_col; "'], alpha=0.6)"];
         cat ["plt.title(f'"; y_col; " vs "; x_col; "')"];
         "plt.xlabel(x_col)";
         "plt.ylabel(y_col)";
         "plt.grid(True, alpha=0.3)";
         cat ["plt.savefig(f'plots/"; x_col; "_"; y_col;
              "_scatter.png', dpi=300, bbox_inches='tight')"];
         "plt.show()"].

Definition correlations_code (columns : string) : string :=
  lines ["# Compute correlation matrix";
         cat ["corr = df["; columns; "].corr()"];
         "print(corr)";
         "";
         "# Visualize correlation";
         "plt.figure(figsize=(10, 8))";
         "sns.heatmap(corr, annot=True, cmap='coolwarm', center=0, square=True)";
         "plt.title('Correlation Matrix')";
         "plt.tight_layout()";
         "plt.savefig('plots/correlation_matrix.png', dpi=300, bbox_inches='tight')";
         "plt.show()"].

Definition generate_report_code : string :=
  lines ["# Report generation handled by backend";
         cat ["print("; dq; "Report generation completed"; dq; ")"]].

(** The default fallback at the end of [_generate_step_code]. *)
Definition placeholder (step : pydict) : string :=
  lines [cat ["# Execute: "; py_str (dict_get "name" step)];
         cat ["# Action: "; py_str (dict_get "action" step)];
         cat ["print(f"; dq; "Executing step "; py_str (dict_get "step_number" step); dq; ")"]].

(** [v.replace('.', '')]: only a [str] has the method. *)
Definition py_replace_dot (v : pyval) : result string :=
  match v with
  | VStr s => Ok (remove_char "." s)
  | _ => Raise AttributeError
  end.

(** [df.columns[i] if 'df' in globals() else '']: the default of a column
    parameter. The module binds no [df] ([in_globals "df"] is false), so the
    default is the empty string. *)
Definition default_column : pyval := VStr "".

(** In the [load_data] template the braces of the inner
    [print(f"Loaded {len(df)} rows, {len(df.columns)} columns")] are not
    doubled, so [{len(df)}] is a replacement field of the template itself: the
    generator evaluates it after the file type and the file path, and [df] is
    no local of the method, no global of the module and no builtin. *)
Definition _generate_step_code (step : pydict) : result string :=
  let action := dict_get "action" step in
  let parameters := dict_get_or "parameters" (VDict []) step in
  if py_eqb action (VStr "load_data") then
    file_type ← py_get parameters "file_type" (VStr "csv");
    file_type ← py_replace_dot file_type;
    file_path ← py_get parameters "file_path" (VStr "");
    Raise NameError
  else if py_eqb action (VStr "compute_stats") then
    columns ← py_get parameters "columns" (VList []);
    if py_truthy columns
    then Ok (compute_stats_code (Some (py_str columns)))
    else Ok (compute_stats_code None)
  else if py_eqb action (VStr "create_plot") then
    plot_type ← py_get parameters "plot_type" (VStr "histogram");
    column ← py_get parameters "column" default_column;
    if py_eqb plot_type (VStr "histogram") then
      Ok (histogram_code (py_str column))
    else if py_eqb plot_type (VStr "scatter") then
      x_col ← py_get parameters "x" default_column;
      y_col ← py_get parameters "y" default_column;
      Ok (scatter_code (py_str x_col) (py_str y_col))
    else Ok (placeholder step)
  else if py_eqb action (VStr "compute_correlations") then
    columns ← py_get parameters "columns" (VList []);
    if py_truthy columns
    then Ok (correlations_code (py_str columns))
    else Ok (placeholder step)
  else if py_eqb action (VStr "generate_report") then
    Ok generate_report_code
  else Ok (placeholder step).

(* --------------------------------------------------------------------- *)
(** ** [_create_notebook] *)

Definition title_cell : cell :=
  Markdown (lines ["# AutoLabMate Analysis Report";
                   "Generated automatically from experimental data"]).

Definition imports_cell : cell :=
  Code (lines ["# Standard data science imports";
               "import pandas as pd";
               "import numpy as np";
               "import matplotlib.pyplot as plt";
               "import seaborn as sns";
               "from scipy import stats";
               "import warnings";
               "warnings.filterwarnings('ignore')";
               "";
               "# Configure plotting";
               "plt.style.use('seaborn-v0_8')";
               cat ["sns.set_palette("; dq; "husl"; dq; ")"]]).

Definition summary_header_cell : cell := Markdown "## Report Summary".

(** Not an f-string in the generator: the braces reach the notebook as they
    are, inside an f-string of the generated program. *)
Definition summary_cell : cell :=
  Code (lines ["# Generate summary";
               cat ["print("; dq; "Analysis completed successfully!"; dq; ")"];
               cat ["print(f"; dq; "Total execution time: {execution_time:.2f} seconds"; dq; ")"]]).

Definition preamble : notebook := [title_cell; imports_cell].
Definition closing : notebook := [summary_header_cell; summary_cell].

Definition step_header (step : pydict) : string :=
  cat ["## Step "; py_str (dict_get "step_number" step); ": "; py_str (dict_get "name" step)].

(** [{**step, **entry}]: the right operand has to be a mapping. *)
Definition merge_step (step : pydict) (entry : pyval) : result pydict :=
  match entry with
  | VDict e => Ok (dict_merge step e)
  | _ => Raise TypeError
  end.

(** [step[k]] *)
Definition dict_item (k : string) (d : pydict) : result pyval :=
  match dict_lookup (KStr k) d with
  | Some v => Ok v
  | None => Raise KeyError
  end.

(** [modifications["steps"][step["step_number"]]] *)
Definition overlay_entry (m : pydict) (step : pydict) : result pyval :=
  table ← dict_item "steps" m;
  number ← dict_item "step_number" step;
  py_getitem table number.

(** The first statement of the loop body: the step with its overlay entry
    merged over it, when [modifications] is non-empty and has one. *)
Definition apply_modifications (modifications : option pydict) (step : pydict)
  : result pydict :=
  match modifications with
  | Some m =>
      if py_truthy (VDict m) then
        has ← py_contains (dict_get "step_number" step) (dict_get_or "steps" (VDict []) m);
        if has : bool then
          entry ← overlay_entry m step;
          merge_step step entry
        else Ok step
      else Ok step
  | None => Ok step
  end.

(** The two cells one round of the loop appends. *)
Definition step_cells (modifications : option pydict) (step : pydict)
  : result (list cell) :=
  step ← apply_modifications modifications step;
  code ← _generate_step_code step;
  Ok [Markdown (step_header step); Code code].

Definition _create_notebook (steps : list pydict) (modifications : option pydict)
  : result notebook :=
  body ← mapM (step_cells modifications) steps;
  Ok (preamble ++ concat body ++ closing).

End Executor.

(* ===================================================================== *)
(** * The executor agent: sandboxed run, report, orchestration *)
(* ===================================================================== *)

Module Runner.
Import Executor.

(** [subprocess.CompletedProcess] *)
Record completed_process : Type := {
  stdout : string;
  stderr : string;
  returncode : Z;
}.

(** What the file system, the exporter, the child process and the clock do
    during one execution. [None] means the call returns, [Some e] that it
    raises [e]; [subprocess_run] raising [TimeoutExpired] is the 300 second
    timeout. [elapsed] is [time.time() - start_time], in seconds. *)
Record world : Type := {
  mkdir_exec_dir : option exn;
  notebook_write : option exn;
  mkdir_plots : option exn;
  export_script : notebook → result string;
  script_write : option exn;
  subprocess_run : result completed_process;
  elapsed : Q;
  report_write : option exn;
  pdf_render : option exn;
}.

Definition effect (o : option exn) : result unit :=
  match o with
  | None => Ok ()
  | Some e => Raise e
  end.

(** The dictionary [_execute_notebook] returns. *)
Record run_result : Type := {
  outputs : pydict;
  execution_time : Q;
  success : bool;
}.

Definition timeout_marker : string := "Execution timeout".

(** [str(e)]: the text the world gave the exception; the message of a
    built-in class is abbreviated to the name of the class. *)
Definition error_value (e : exn) : pyval :=
  match e with
  | OtherError msg => VStr msg
  | AttributeError => VStr "AttributeError"
  | TypeError => VStr "TypeError"
  | KeyError => VStr "KeyError"
  | IndexError => VStr "IndexError"
  | ZeroDivisionError => VStr "ZeroDivisionError"
  | NameError => VStr "NameError"
  | TimeoutExpired => VStr "TimeoutExpired"
  end.

Definition _execute_notebook (w : world) (nb : notebook) : result run_result :=
  try_except
    (effect (mkdir_plots w);;
     script ← export_script w nb;
     effect (script_write w);;
     result ← subprocess_run w;
     Ok {| outputs := [(KStr "stdout", VStr (stdout result));
                       (KStr "stderr", VStr (stderr result));
                       (KStr "returncode", VInt (returncode result))];
           execution_time := elapsed w;
           success := (returncode result =? 0)%Z |})
    (fun e =>
       match e with
       | TimeoutExpired =>
           Ok {| outputs := [(KStr "error", VStr timeout_marker)];
                 execution_time := elapsed w;
                 success := false |}
       | _ =>
           Ok {| outputs := [(KStr "error", error_value e)];
                 execution_time := elapsed w;
                 success := false |}
       end).

(** [a / b] on paths *)
Definition path_join (dir name : string) : string := cat [dir; "/"; name].

Definition work_dir : string := "workspace".

(** [_generate_report]: a failure to write the markdown report is raised again,
    a failure to render the PDF falls back to the markdown path. The text of
    the report is not modelled. *)
Definition _generate_report (w : world) (exec_dir : string) (run : run_result)
  : result string :=
  try_except
    (let md_path := path_join exec_dir "report.md" in
     effect (report_write w);;
     let pdf_path := path_join exec_dir "report.pdf" in
     pdf_path ← try_except (effect (pdf_render w);; Ok pdf_path) (fun _ => Ok md_path);
     Ok pdf_path)
    (fun e => Raise e).

(** The dictionary [execute_plan] returns; [error] is the exception whose
    [str] the source stores. *)
Record outcome : Type := {
  status : string;
  plan_id : string;
  notebook_path : option string;
  report_path : option string;
  outcome_outputs : option pydict;
  outcome_execution_time : option Q;
  error : option exn;
}.

Definition execute_plan (w : world) (plan : string) (steps : list pydict)
    (modifications : option pydict) : result outcome :=
  try_except
    (let exec_dir := path_join work_dir plan in
     effect (mkdir_exec_dir w);;
     let nb_path := path_join exec_dir "analysis.ipynb" in
     nb ← _create_notebook steps modifications;
     effect (notebook_write w);;
     result ← _execute_notebook w nb;
     report ← _generate_report w exec_dir result;
     Ok {| status := "success";
           plan_id := plan;
           notebook_path := Some nb_path;
           report_path := Some report;
           outcome_outputs := Some (outputs result);
           outcome_execution_time := Some (execution_time result);
           error := None |})
    (fun e =>
       Ok {| status := "failed";
             plan_id := plan;
             notebook_path := None;
             report_path := None;
             outcome_outputs := None;
             outcome_execution_time := None;
             error := Some e |}).

End Runner.

(* ===================================================================== *)
(** * The monitor agent *)
(* ===================================================================== *)

Module Monitor.

Record log_entry : Type := {
  timestamp : string;
  level : string;
  message : string;
  step : option Z;
}.

(** [self.executions] and [self.logs] *)
Record monitor : Type := {
  executions : gmap string (gmap string pyval);
  logs : gmap string (list log_entry);
}.

(** [__init__] *)
Definition init : monitor := {| executions := ∅; logs := ∅ |}.

(** [d.get(k, default)] on a record of [self.executions] *)
Definition rec_get (k : string) (dflt : pyval) (r : gmap string pyval) : pyval :=
  default dflt (r !! k).

(** [a > 0] *)
Definition py_gt0 (a : pyval) : result bool :=
  match val_num a with
  | Some z => Ok (0 <? z)%Z
  | None => Raise TypeError
  end.

(** [a / b * 100], in exact arithmetic *)
Definition py_percent (a b : pyval) : result Q :=
  match val_num a, val_num b with
  | Some x, Some y =>
      if (y =? 0)%Z then Raise ZeroDivisionError
      else Ok (inject_Z x / inject_Z y * 100)%Q
  | _, _ => Raise TypeError
  end.

(** [l[-50:]] *)
Definition last50 {A} (l : list A) : list A := drop (length l - 50) l.

Record status_view : Type := {
  view_status : pyval;
  current_step : pyval;
  total_steps : pyval;
  view_logs : list string;
  estimated_remaining : pyval;
  progress_percent : Q;
}.

(** The reply of [get_execution_status]: the status dictionary, or the
    [{"status": "error", "error": str(e)}] of the handler. *)
Inductive status_reply : Type :=
  | StatusOk (v : status_view)
  | StatusError (e : exn).

Definition get_execution_status (m : monitor) (execution_id : string) : status_reply :=
  let execution := default ∅ (executions m !! execution_id) in
  let log_entries := default [] (logs m !! execution_id) in
  let reply :=
    positive ← py_gt0 (rec_get "total_steps" (VInt 0) execution);
    percent ←
      (if positive : bool
       then py_percent (rec_get "current_step" (VInt 0) execution)
                       (rec_get "total_steps" (VInt 1) execution)
       else Ok 0%Q);
    Ok {| view_status := rec_get "status" (VStr "unknown") execution;
          current_step := rec_get "current_step" (VInt 0) execution;
          total_steps := rec_get "total_steps" (VInt 0) execution;
          view_logs := message <$> last50 log_entries;
          estimated_remaining := rec_get "estimated_remaining" VNone execution;
          progress_percent := percent |} in
  match reply with
  | Ok v => StatusOk v
  | Raise e => StatusError e
  end.

(** [get_logs] *)
Definition get_logs (m : monitor) (experiment_id : string) : list log_entry :=
  default [] (logs m !! experiment_id).

(** [add_log]; [now] is what [datetime.utcnow().isoformat()] returns. *)
Definition add_log (m : monitor) (execution_id lvl msg : string) (stp : option Z)
    (now : string) : monitor :=
  let entry := {| timestamp := now; level := lvl; message := msg; step := stp |} in
  {| executions := executions m;
     logs := <[execution_id := default [] (logs m !! execution_id) ++ [entry]]> (logs m) |}.

(** [x or y] for an optional integer argument [x] *)
Definition int_or (x : option Z) (y : pyval) : pyval :=
  match x with
  | Some z => if (z =? 0)%Z then y else VInt z
  | None => y
  end.

Definition opt_str (x : option string) : pyval :=
  match x with
  | Some s => VStr s
  | None => VNone
  end.

(** [update_execution_status]; [now] stamps the record, [now_log] the log
    line that follows. *)
Definition update_execution_status (m : monitor) (execution_id new_status : string)
    (cur tot : option Z) (eta : option string) (now now_log : string) : monitor :=
  let old := default ∅ (executions m !! execution_id) in
  let new :=
    <["last_updated" := VStr now]>
    (<["estimated_remaining" := opt_str eta]>
    (<["total_steps" := int_or tot (rec_get "total_steps" VNone old)]>
    (<["current_step" := int_or cur (rec_get "current_step" VNone old)]>
    (<["status" := VStr new_status]> old)))) in
  add_log {| executions := <[execution_id := new]> (executions m); logs := logs m |}
          execution_id "INFO" ("Status updated: " +:+ new_status) None now_log.

(** [handle_step_completion] *)
Definition handle_step_completion (m : monitor) (execution_id : string)
    (step_number : Z) (ok : bool) (now_step now now_log : string) : monitor :=
  let m1 :=
    if ok
    then add_log m execution_id "INFO"
           ("Step " +:+ pretty step_number +:+ " completed successfully")
           (Some step_number) now_step
    else add_log m execution_id "ERROR"
           ("Step " +:+ pretty step_number +:+ " failed")
           (Some step_number) now_step in
  update_execution_status m1 execution_id "running" (Some step_number) None None now now_log.

(** The states the tracker can be driven into through its writing operations. *)
Inductive reachable : monitor → Prop :=
  | reach_init : reachable init
  | reach_add_log m id lvl msg stp now :
      reachable m → reachable (add_log m id lvl msg stp now)
  | reach_update m id st cur tot eta now now_log :
      reachable m → reachable (update_execution_status m id st cur tot eta now now_log)
  | reach_step m id n ok t1 t2 t3 :
      reachable m → reachable (handle_step_completion m id n ok t1 t2 t3).

End Monitor.

(* ===================================================================== *)
(** * The background task of the API server *)
(* ===================================================================== *)

Module Main.
Import Runner Monitor.

(** The module-level agents of [main.py] that an execution can touch. *)
Record app : Type := {
  monitor_agent : monitor;
}.

(** [_execute_plan_background]: the task calls [executor_agent.execute_plan]
    and logs; the result is dropped and [monitor_agent] is not written. *)
Definition _execute_plan_background (w : world) (execution_id plan : string)
    (steps : list pydict) (user_modifications : option pydict) (a : app)
  : result unit * app :=
  (try_except
     (result ← execute_plan w plan steps user_modifications; Ok ())
     (fun _ => Ok ()),
   a).

End Main.

(* ===================================================================== *)
(** * Auxiliary notions the properties are stated with *)
(* ===================================================================== *)

Module Notions.
Import Executor Runner Monitor Main.

(** [s] occurs inside [t]. *)
Definition contains (t s : string) : Prop := ∃ pre post, t = pre +:+ s +:+ post.

(** The number of positions of [s] at which [t] starts. *)
Fixpoint occurrences (t s : string) : nat :=
  (if String.prefix t s then 1 else 0) +
  match s with
  | EmptyString => 0
  | String _ r => occurrences t r
  end.

(** All code cells of a notebook, in order: the statements of the program the
    exporter writes (markdown cells become comments). *)
Definition program_text (nb : notebook) : string :=
  lines (cell_source <$> filter (fun c => is_code c = true) nb).

(** A world in which every call returns and the child process ends as [run]
    says. The exporter is represented by [program_text]. *)
Definition quiet_world (run : result completed_process) (seconds : Q) : world :=
  {| mkdir_exec_dir := None;
     notebook_write := None;
     mkdir_plots := None;
     export_script := fun nb => Ok (program_text nb);
     script_write := None;
     subprocess_run := run;
     elapsed := seconds;
     report_write := None;
     pdf_render := None |}.

(** The child process ends with exit status 1. *)
Definition exit1_world : world :=
  quiet_world (Ok {| stdout := ""; stderr := "NameError: name 'execution_time' is not defined";
                     returncode := 1 |}) 2.

(** The child process is killed by the timeout. *)
Definition timeout_world : world := quiet_world (Raise TimeoutExpired) 300.

(** A step whose fragment the step compiler produces. *)
Definition compiles (step : pydict) : Prop := ∃ code, _generate_step_code step = Ok code.

(** The header and code cells of a step that compiles to [code]. *)
Definition step_block (step : pydict) (code : string) : list cell :=
  [Markdown (step_header step); Code code].

(** The action is one of the five literals [_generate_step_code] compares with. *)
Definition recognized (action : pyval) : bool :=
  py_eqb action (VStr "load_data") || py_eqb action (VStr "compute_stats") ||
  py_eqb action (VStr "create_plot") || py_eqb action (VStr "compute_correlations") ||
  py_eqb action (VStr "generate_report").

(** A [create_plot] step without parameters. *)
Definition bare_plot_step : pydict :=
  [(KStr "step_number", VInt 3); (KStr "name", VStr "Plot");
   (KStr "action", VStr "create_plot"); (KStr "parameters", VDict [])].

(** A step with an action the compiler does not know. *)
Definition unknown_step : pydict :=
  [(KStr "step_number", VInt 7); (KStr "name", VStr "Normalize");
   (KStr "action", VStr "normalize")].

(** The condition of the loop body: [modifications] is non-empty and its
    [steps] table has the number of the step. *)
Definition has_entry (mods : option pydict) (step : pydict) : bool :=
  match mods with
  | Some m =>
      py_truthy (VDict m) &&
      match py_contains (dict_get "step_number" step) (dict_get_or "steps" (VDict []) m) with
      | Ok b => b
      | Raise _ => false
      end
  | None => false
  end.

Definition entry_of (mods : option pydict) (step : pydict) : result pyval :=
  match mods with
  | Some m => overlay_entry m step
  | None => Raise KeyError
  end.

(** Every key occurs once, as in a dictionary Python built. *)
Fixpoint dict_wf (d : pydict) : bool :=
  match d with
  | [] => true
  | (k, _) :: r => negb (bool_decide (is_Some (dict_lookup k r))) && dict_wf r
  end.

(** Keys up to [==]: a bool is the integer it equals. *)
Definition key_norm (k : pykey) : pykey :=
  match k with
  | KBool b => KInt (Z.b2z b)
  | _ => k
  end.

Definition load_step : pydict :=
  [(KStr "step_number", VInt 1); (KStr "name", VStr "Load Data");
   (KStr "action", VStr "load_data");
   (KStr "parameters", VDict [(KStr "file_path", VStr "test.csv");
                              (KStr "file_type", VStr ".csv")])].

Definition stats_step : pydict :=
  [(KStr "step_number", VInt 1); (KStr "name", VStr "Statistics");
   (KStr "action", VStr "compute_stats");
   (KStr "parameters", VDict [(KStr "columns", VList [VStr "x"])])].

Definition report_step : pydict :=
  [(KStr "step_number", VInt 2); (KStr "name", VStr "Report");
   (KStr "action", VStr "generate_report"); (KStr "parameters", VDict [])].

(** An overlay for step 1 that sets its parameters to null. *)
Definition null_parameters_overlay : pydict :=
  [(KStr "steps", VDict [(KInt 1, VDict [(KStr "parameters", VNone)])])].

(** An overlay for step 1 that selects another column. *)
Definition columns_overlay : pydict :=
  [(KStr "steps",
    VDict [(KInt 1, VDict [(KStr "parameters",
                            VDict [(KStr "columns", VList [VStr "y"])])])])].









Definition estimated_monitor : monitor :=
  update_execution_status init "exec_p1" "running" (Some 1%Z) (Some 4%Z)
    (Some "6 minutes") "t0" "t1".

Definition reupdated_monitor : monitor :=
  update_execution_status estimated_monitor "exec_p1" "running" (Some 2%Z) None None "t2" "t3".

End Notions.

(* ===================================================================== *)
(** * The executor agent: the text of the report *)
(* ===================================================================== *)

Module Report.
Import Runner.

Section report_text.

(** [format(x, '.2f')] on a float, as the runtime prints it. *)
Variable fmt2f : Q → string.

(** [f.write(v)]: only a [str] can be written. *)
Definition write_arg (v : pyval) : result string :=
  match v with
  | VStr s => Ok s
  | _ => Raise TypeError
  end.

(** What [_generate_report] has written to [report.md] when the [with] block
    is left, one [f.write] after the other; [now] is
    [time.strftime('%Y-%m-%d %H:%M:%S')]. *)
Definition report_markdown (now : string) (run : run_result) : result string :=
  let written :=
    cat ["# AutoLabMate Experimental Report" +:+ nl +:+ nl;
         cat ["Generated at: "; now; nl; nl];
         "## Analysis Results" +:+ nl +:+ nl;
         "Analysis completed successfully." +:+ nl +:+ nl] in
  if success run then
    let written :=
      written +:+ cat ["Execution time: "; fmt2f (execution_time run); " seconds"; nl; nl] in
    if py_truthy (dict_get "stdout" (outputs run)) then
      stdout ← Executor.dict_item "stdout" (outputs run);
      text ← write_arg stdout;
      Ok (cat [written;
               "## Execution Log" +:+ nl +:+ nl +:+ "```" +:+ nl;
               text;
               nl +:+ "```" +:+ nl +:+ nl])
    else Ok written
  else Ok written.

End report_text.

End Report.

(* ===================================================================== *)
(** * The vector store, in mock mode *)
(* ===================================================================== *)

Module VectorStore.

(** An entry of [self.mock_data]. *)
Record document : Type := {
  doc_id : string;
  doc_text : string;
  doc_metadata : pydict;
}.

(** An entry of the list [search] returns; the mock score is 0.8. *)
Record search_result : Type := {
  res_id : string;
  res_score : Q;
  res_metadata : pydict;
  res_text : string;
}.

(** [str.isspace] on code points below 256. *)
Definition is_space (c : ascii) : bool :=
  bool_decide (nat_of_ascii c ∈ [9; 10; 11; 12; 13; 28; 29; 30; 31; 32; 133; 160]).

(** [str.lower] on code points below 256: A-Z, and the capital letters of
    Latin-1 (192 to 222 without the multiplication sign 215). *)
Definition lower_char (c : ascii) : ascii :=
  let n := nat_of_ascii c in
  if (Nat.leb 65 n && Nat.leb n 90) ||
     (Nat.leb 192 n && Nat.leb n 222 && negb (Nat.eqb n 215))
  then ascii_of_nat (n + 32) else c.

Fixpoint lower (s : string) : string :=
  match s with
  | EmptyString => ""
  | String c r => String (lower_char c) (lower r)
  end.

(** [s.split()]: the maximal runs of characters that are no white space. *)
Fixpoint split (s : string) : list string :=
  match s with
  | EmptyString => []
  | String c r =>
      if is_space c then split r
      else match r with
           | EmptyString => [String c ""]
           | String c' _ =>
               if is_space c' then String c "" :: split r
               else match split r with
                    | w :: ws => String c w :: ws
                    | [] => [String c ""]
                    end
           end
  end.

(** [l[start:]] and [l[:stop]] *)
Definition slice_from {A} (start : Z) (l : list A) : list A :=
  if (start <? 0)%Z then drop (Z.to_nat (Z.of_nat (length l) + start)) l
  else drop (Z.to_nat start) l.

Definition slice_to {A} (stop : Z) (l : list A) : list A :=
  if (stop <? 0)%Z then take (Z.to_nat (Z.of_nat (length l) + stop)) l
  else take (Z.to_nat stop) l.

(** [x or y] for an optional string [x] *)
Definition str_or (x : option string) (y : string) : string :=
  match x with
  | Some s => if bool_decide (s = "") then y else s
  | None => y
  end.

(** [_add_document_mock]; [uuid] is [str(uuid.uuid4())]. Returns the id and the
    new [mock_data]. *)
Definition _add_document_mock (mock_data : list document) (text : string)
    (metadata : option pydict) (id : option string) (uuid : string)
  : string * list document :=
  let id := str_or id uuid in
  (id, mock_data ++ [{| doc_id := id; doc_text := text;
                        doc_metadata := default [] metadata |}]).

(** [any(keyword.lower() in text.lower() for keyword in query.split())] *)
Definition keyword_match (query text : string) : bool :=
  existsb (fun keyword => is_substring (lower keyword) (lower text)) (split query).

Definition to_result (d : document) : search_result :=
  {| res_id := doc_id d; res_score := 8 # 10;
     res_metadata := doc_metadata d; res_text := doc_text d |}.

(** [_search_mock]; the filter is not read. *)
Definition _search_mock (mock_data : list document) (query : string) (top_k : Z)
  : list search_result :=
  slice_to top_k
    (to_result <$> filter (fun d => keyword_match query (doc_text d) = true)
                          (slice_from (- top_k) mock_data)).

(** [search] in mock mode: nothing in [_search_mock] raises, the handler that
    returns the empty list is not entered. *)
Definition search (mock_data : list document) (query : string) (top_k : Z)
  : list search_result :=
  _search_mock mock_data query top_k.

End VectorStore.

(* ===================================================================== *)
(** * The planner agent, in mock mode *)
(* ===================================================================== *)

Module Planner.
Import Runner VectorStore.

(** What pandas reports about the data frame it loaded. *)
Record frame : Type := {
  columns : list pyval;
  row_count : Z;
  dtypes : pydict;
  sample_rows : list pyval;
  has_nulls : pydict;
  numeric_columns : list pyval;
  categorical_columns : list pyval;
}.

(** What the file system and pandas do for one dataset path: the suffix of
    the path, the two loaders and [path.stat().st_size]. *)
Record probe : Type := {
  path_suffix : string;
  read_csv : result frame;
  read_json : result frame;
  st_size : result Z;
}.

Definition analysis_of (suffix : string) (size : Z) (df : frame) : pydict :=
  [(KStr "file_type", VStr suffix);
   (KStr "file_size", VInt size);
   (KStr "columns", VList (columns df));
   (KStr "row_count", VInt (row_count df));
   (KStr "dtypes", VDict (dtypes df));
   (KStr "sample_rows", VList (sample_rows df));
   (KStr "has_nulls", VDict (has_nulls df));
   (KStr "numeric_columns", VList (numeric_columns df));
   (KStr "categorical_columns", VList (categorical_columns df))].

(** [_analyze_dataset]: every fault ends in the [{"error": str(e)}] of the
    handler. *)
Definition _analyze_dataset (p : probe) : pydict :=
  let loaded :=
    if bool_decide (path_suffix p = ".csv") then Some (read_csv p)
    else if bool_decide (path_suffix p = ".json") then Some (read_json p)
    else None in
  match loaded with
  | None => [(KStr "error", VStr ("Unsupported file type: " +:+ path_suffix p))]
  | Some load =>
      match (df ← load; size ← st_size p; Ok (analysis_of (path_suffix p) size df)) with
      | Ok info => info
      | Raise e => [(KStr "error", error_value e)]
      end
  end.

(** [sep.join(v)]: the items of a list, the characters of a string or the keys
    of a dict, all of which have to be strings. *)
Definition py_join (sep : string) (v : pyval) : result string :=
  match v with
  | VList l =>
      items ← mapM (fun x => match x with VStr s => Ok s | _ => Raise TypeError end) l;
      Ok (join sep items)
  | VStr s => Ok (join sep ((fun c => String c "") <$> String.list_ascii_of_string s))
  | VDict d =>
      items ← mapM (fun kv => match kv.1 with KStr s => Ok s | _ => Raise TypeError end) d;
      Ok (join sep items)
  | _ => Raise TypeError
  end.

(** [_get_rag_context] *)
Definition _get_rag_context (mock_data : list document) (dataset_info : pydict)
  : list search_result :=
  match py_join ", " (dict_get_or "columns" (VList []) dataset_info) with
  | Ok joined => search mock_data ("Dataset with columns: " +:+ joined) 5
  | Raise _ => []
  end.

(** [len(v)] *)
Definition py_len (v : pyval) : result nat :=
  match v with
  | VList l => Ok (length l)
  | VStr s => Ok (String.length s)
  | VDict d => Ok (length d)
  | _ => Raise TypeError
  end.

(** [v[:5]]; a dict cannot be sliced ([TypeError] up to Python 3.11, where a
    slice is unhashable, [KeyError] after). *)
Definition py_slice5 (v : pyval) : result pyval :=
  match v with
  | VList l => Ok (VList (take 5 l))
  | VStr s => Ok (VStr (String.substring 0 5 s))
  | _ => Raise TypeError
  end.

Definition make_step (number : nat) (name action : string) (parameters : pydict)
    (expected_output estimated_time : string) : pydict :=
  [(KStr "step_number", VInt (Z.of_nat number));
   (KStr "name", VStr name);
   (KStr "action", VStr action);
   (KStr "parameters", VDict parameters);
   (KStr "expected_output", VStr expected_output);
   (KStr "estimated_time", VStr estimated_time)].

(** The dictionary [_generate_mock_plan] returns. *)
Record plan : Type := {
  steps : list pydict;
  estimated_duration : string;
  confidence_score : Q;
  generated_by : string;
  dataset_characteristics : pydict;
}.

(** [_generate_mock_plan]; the description is not read. *)
Definition _generate_mock_plan (dataset_info : pydict) : result plan :=
  let steps :=
    [make_step 1 "Data Loading and Validation" "load_data"
       [(KStr "file_path", dict_get_or "file_path" (VStr "") dataset_info);
        (KStr "file_type", dict_get_or "file_type" (VStr ".csv") dataset_info)]
       "validated_dataframe" "30s";
     make_step 2 "Descriptive Statistics" "compute_stats"
       [(KStr "columns", dict_get_or "numeric_columns" (VList []) dataset_info)]
       "statistics_summary" "1m"] in
  steps ←
    (if py_truthy (dict_get "numeric_columns" dataset_info) then
       table ← Executor.dict_item "numeric_columns" dataset_info;
       first ← py_getitem table (VInt 0);
       Ok (steps ++
           [make_step (length steps + 1)
              (cat ["Visualization: "; py_str first; " Distribution"]) "create_plot"
              [(KStr "plot_type", VStr "histogram"); (KStr "column", first)]
              "plot_image" "1m"])
     else Ok steps);
  let numeric_cols := dict_get_or "numeric_columns" (VList []) dataset_info in
  count ← py_len numeric_cols;
  steps ←
    (if Nat.leb 2 count then
       cols ← py_slice5 numeric_cols;
       Ok (steps ++
           [make_step (length steps + 1) "Correlation Analysis" "compute_correlations"
              [(KStr "columns", cols)] "correlation_matrix" "2m"])
     else Ok steps);
  let steps :=
    steps ++
    [make_step (length steps + 1) "Generate Report" "generate_report"
       [(KStr "format", VStr "pdf"); (KStr "include_plots", VBool true)]
       "lab_report.pdf" "3m"] in
  Ok {| steps := steps;
        estimated_duration := cat [pretty (Z.of_nat (length steps * 2)); " minutes"];
        confidence_score := 85 # 100;
        generated_by := "mock_planner";
        dataset_characteristics := dataset_info |}.

(** [generate_plan] with [use_mock] set, as it is unless [MOCK_MODE] says
    otherwise; the handler raises again what it caught. *)
Definition generate_plan (p : probe) (mock_data : list document) : result plan :=
  try_except
    (let dataset_info := _analyze_dataset p in
     let context := _get_rag_context mock_data dataset_info in
     _generate_mock_plan dataset_info)
    (fun e => Raise e).

End Planner.

(* ===================================================================== *)
(** * Well-formed tracker records *)
(* ===================================================================== *)

Module Records.
Import Monitor.

(** A stored step count: [None], or an integer other than 0. *)
Definition count_ok (v : pyval) : bool :=
  match v with
  | VNone => true
  | VInt z => negb (z =? 0)%Z
  | _ => false
  end.

Definition is_str (v : pyval) : bool :=
  match v with
  | VStr _ => true
  | _ => false
  end.

Definition is_str_or_none (v : pyval) : bool :=
  match v with
  | VStr _ | VNone => true
  | _ => false
  end.

Definition field_ok (check : pyval → bool) (r : gmap string pyval) (k : string) : bool :=
  match r !! k with
  | Some v => check v
  | None => false
  end.

(** The five fields [update_execution_status] writes, with the values it can
    give them. *)
Definition record_ok (r : gmap string pyval) : bool :=
  field_ok is_str r "status" && field_ok count_ok r "current_step" &&
  field_ok count_ok r "total_steps" && field_ok is_str_or_none r "estimated_remaining" &&
  field_ok is_str r "last_updated".

(** Every record is well formed and comes with at least one log line. *)
Definition tracker_ok (m : monitor) : Prop :=
  ∀ id r, executions m !! id = Some r → record_ok r = true ∧ get_logs m id ≠ [].

(** The log line of a status update. *)
Definition status_line (new_status now_log : string) : log_entry :=
  {| timestamp := now_log; level := "INFO";
     message := "Status updated: " +:+ new_status; step := None |}.

(** The log line of a step completion. *)
Definition step_line (step_number : Z) (ok : bool) (now : string) : log_entry :=
  {| timestamp := now; level := if ok then "INFO" else "ERROR";
     message := "Step " +:+ pretty step_number +:+
                (if ok then " completed successfully" else " failed");
     step := Some step_number |}.

End Records.

(* ===================================================================== *)
(** * Further notions *)
(* ===================================================================== *)

Module MoreNotions.
Import Executor Runner Notions.

(** The world [w], except for what rendering the PDF does. *)
Definition with_pdf_render (w : world) (o : option exn) : world :=
  {| mkdir_exec_dir := mkdir_exec_dir w;
     notebook_write := notebook_write w;
     mkdir_plots := mkdir_plots w;
     export_script := export_script w;
     script_write := script_write w;
     subprocess_run := subprocess_run w;
     elapsed := elapsed w;
     report_write := report_write w;
     pdf_render := o |}.

(** The outputs of a completed child process. *)
Definition process_outputs (p : completed_process) : pydict :=
  [(KStr "stdout", VStr (stdout p)); (KStr "stderr", VStr (stderr p));
   (KStr "returncode", VInt (returncode p))].

(** The action of the step is the string [load_data]. *)
Definition is_load_data (step : pydict) : bool :=
  py_eqb (dict_get "action" step) (VStr "load_data").

(** The report of a run that did not succeed, and the first four writes of
    every report. *)
Definition report_head (now : string) : string :=
  lines ["# AutoLabMate Experimental Report"; "";
         "Generated at: " +:+ now; "";
         "## Analysis Results"; "";
         "Analysis completed successfully."; ""; ""].

(** The fenced block the report shows the standard output in. *)
Definition fenced (text : string) : string :=
  lines ["```"; text; "```"].

Definition scatter_step (x y : string) : pydict :=
  [(KStr "step_number", VInt 4); (KStr "name", VStr "Scatter");
   (KStr "action", VStr "create_plot");
   (KStr "parameters", VDict [(KStr "plot_type", VStr "scatter");
                              (KStr "x", VStr x); (KStr "y", VStr y)])].

(** A plot of a type the compiler has no template for. *)
Definition pie_step : pydict :=
  [(KStr "step_number", VInt 5); (KStr "name", VStr "Shares");
   (KStr "action", VStr "create_plot");
   (KStr "parameters", VDict [(KStr "plot_type", VStr "pie")])].

(** An overlay as a JSON body gives it: the key is the string "1". *)
Definition json_overlay : pydict :=
  [(KStr "steps", VDict [(KStr "1", VDict [(KStr "action", VStr "generate_report")])])].

(** A world in which rendering the PDF fails and the child process exits 0. *)
Definition no_renderer_world : world :=
  with_pdf_render (quiet_world (Ok {| stdout := "done"; stderr := ""; returncode := 0 |}) 1)
                  (Some (OtherError "No module named 'weasyprint'")).


(** Every character of the text is white space. *)
Fixpoint all_space (s : string) : bool :=
  match s with
  | EmptyString => true
  | String c r => VectorStore.is_space c && all_space r
  end.

(** The documents used as examples. *)
Definition sop_document : VectorStore.document :=
  {| VectorStore.doc_id := "sop-1"; VectorStore.doc_text := "Calibrate the SENSOR first";
     VectorStore.doc_metadata := [] |}.

(** The steps of the mock plan, as [_generate_mock_plan] writes them. *)
Definition load_of (info : pydict) : pydict :=
  Planner.make_step 1 "Data Loading and Validation" "load_data"
    [(KStr "file_path", dict_get_or "file_path" (VStr "") info);
     (KStr "file_type", dict_get_or "file_type" (VStr ".csv") info)]
    "validated_dataframe" "30s".

Definition stats_of (cols : list pyval) : pydict :=
  Planner.make_step 2 "Descriptive Statistics" "compute_stats"
    [(KStr "columns", VList cols)] "statistics_summary" "1m".

Definition plot_of (c : pyval) : pydict :=
  Planner.make_step 3 (cat ["Visualization: "; py_str c; " Distribution"]) "create_plot"
    [(KStr "plot_type", VStr "histogram"); (KStr "column", c)] "plot_image" "1m".

Definition correlations_of (cols : list pyval) : pydict :=
  Planner.make_step 4 "Correlation Analysis" "compute_correlations"
    [(KStr "columns", VList (take 5 cols))] "correlation_matrix" "2m".

Definition report_of (n : nat) : pydict :=
  Planner.make_step n "Generate Report" "generate_report"
    [(KStr "format", VStr "pdf"); (KStr "include_plots", VBool true)]
    "lab_report.pdf" "3m".

(** The numeric columns of the dataset information are the list [cols]; a
    missing entry counts as the empty list. *)
Definition numeric_is (info : pydict) (cols : list pyval) : Prop :=
  dict_lookup (KStr "numeric_columns") info = Some (VList cols) ∨
  (dict_lookup (KStr "numeric_columns") info = None ∧ cols = []).

(** A data frame with three numeric columns, and a probe that loads it. *)
Definition sensor_frame : Planner.frame :=
  {| Planner.columns := [VStr "time"; VStr "temp"; VStr "ph"; VStr "site"];
     Planner.row_count := 100;
     Planner.dtypes := [];
     Planner.sample_rows := [];
     Planner.has_nulls := [];
     Planner.numeric_columns := [VStr "time"; VStr "temp"; VStr "ph"];
     Planner.categorical_columns := [VStr "site"] |}.

Definition csv_probe : Planner.probe :=
  {| Planner.path_suffix := ".csv"; Planner.read_csv := Ok sensor_frame;
     Planner.read_json := Raise (OtherError "not read"); Planner.st_size := Ok 2048%Z |}.

End MoreNotions.

(* ===================================================================== *)
(** * Properties *)
(* ===================================================================== *)

Module Properties.
Import Executor Runner Monitor Main Notions.

Ltac run_monad :=
  repeat (unfold mbind, mret, result_bind, result_ret, try_except, effect in *; simpl in *).

(* --------------------------------------------------------------------- *)
(** ** The sandbox runner and the orchestrator never raise *)

Lemma execute_notebook_returns w nb : ∃ r, _execute_notebook w nb = Ok r.
Proof.
  unfold _execute_notebook. run_monad.
  destruct (mkdir_plots w) as [e|]; [destruct e; eauto|].
  destruct (export_script w nb) as [script|e]; [|destruct e; eauto].
  destruct (script_write w) as [e|]; [destruct e; eauto|].
  destruct (subprocess_run w) as [p|e]; [eauto|destruct e; eauto].
Qed.

Lemma execute_plan_returns w plan steps mods :
  ∃ o, execute_plan w plan steps mods = Ok o ∧ (status o = "success" ∨ status o = "failed").
Proof.
  unfold execute_plan.
  set (body := mbind _ _).
  destruct body as [o|e] eqn:Hbody; simpl; [|eauto].
  exists o. split; [done|]. left.
  subst body. run_monad.
  repeat match type of Hbody with
         | match ?x with _ => _ end = _ => destruct x; try discriminate
         end.
  by inversion Hbody.
Qed.

(** Whenever the plan compiles and the files can be written, the status is
    "success", whatever the child process did. *)
Lemma execute_plan_status_ignores_run w plan steps mods nb :
  mkdir_exec_dir w = None → _create_notebook steps mods = Ok nb →
  notebook_write w = None → report_write w = None →
  ∃ o r, execute_plan w plan steps mods = Ok o ∧ _execute_notebook w nb = Ok r ∧
         status o = "success" ∧ outcome_outputs o = Some (outputs r).
Proof.
  intros H1 H2 H3 H4.
  destruct (execute_notebook_returns w nb) as [r Hr].
  unfold execute_plan, _generate_report. run_monad.
  rewrite H1, H2, H3, Hr, H4. simpl.
  destruct (pdf_render w); simpl; eexists _, r; repeat split; reflexivity.
Qed.

(** C1. A run whose child process exits with status 1, and a run that is killed
    by the timeout, both have [success = False] in the runner's result, and
    [execute_plan] reports both with status "success". *)
Theorem execute_plan_reports_success_on_failed_run :
  (∃ r o, _execute_notebook exit1_world (preamble ++ closing) = Ok r ∧ success r = false ∧
          execute_plan exit1_world "p1" [] None = Ok o ∧ status o = "success" ∧
          outcome_outputs o = Some [(KStr "stdout", VStr "");
                                    (KStr "stderr", VStr "NameError: name 'execution_time' is not defined");
                                    (KStr "returncode", VInt 1)]) ∧
  (∃ r o, _execute_notebook timeout_world (preamble ++ closing) = Ok r ∧ success r = false ∧
          execute_plan timeout_world "p1" [] None = Ok o ∧ status o = "success" ∧
          outcome_outputs o = Some [(KStr "error", VStr "Execution timeout")]).
Proof.
  split; eexists _, _; repeat split; reflexivity.
Qed.

(* --------------------------------------------------------------------- *)
(** ** The background task and the tracker *)

(** C2, as stated, fails: after the background task has driven the empty plan
    to its end, the tracker has no record and no log line for the execution,
    and a status query answers "unknown" with an empty log. *)
Lemma background_task_leaves_tracker_unwritten :
  let a' := (_execute_plan_background exit1_world "exec_p1" "p1" [] None
               {| monitor_agent := init |}).2 in
  executions (monitor_agent a') !! "exec_p1" = None ∧
  logs (monitor_agent a') !! "exec_p1" = None ∧
  ∃ v, get_execution_status (monitor_agent a') "exec_p1" = StatusOk v ∧
       view_status v = VStr "unknown" ∧ view_logs v = [].
Proof.
  repeat split. eexists. repeat split; reflexivity.
Qed.

(** C2, amended. No fault leaves the orchestrator: [execute_plan] always
    returns an outcome whose status is "success" or "failed", and the
    background task returns normally; the task writes nothing to the tracker,
    whose records and logs are exactly those from before the execution. *)
Theorem background_task_contract w execution_id plan steps mods a :
  (∃ o, execute_plan w plan steps mods = Ok o ∧
        (status o = "success" ∨ status o = "failed")) ∧
  _execute_plan_background w execution_id plan steps mods a = (Ok (), a) ∧
  get_execution_status
    (monitor_agent (_execute_plan_background w execution_id plan steps mods a).2)
    execution_id
  = get_execution_status (monitor_agent a) execution_id.
Proof.
  pose proof (execute_plan_returns w plan steps mods) as (o & Ho & Hst).
  split; [eauto|].
  unfold _execute_plan_background. rewrite Ho. done.
Qed.

(* --------------------------------------------------------------------- *)
(** ** The empty plan *)

(** C3. The empty plan compiles, without raising, to the title, the imports,
    the summary header and the summary code. The summary code reads
    [execution_time] inside an f-string of the generated program, and that is
    the only place of the program where the name occurs: nothing binds it, so
    the last statement of the program raises [NameError]. *)
Theorem empty_plan_program_reads_unbound_name :
  _create_notebook [] None = Ok [title_cell; imports_cell; summary_header_cell; summary_cell] ∧
  occurrences ("print(f" +:+ dq +:+ "Total execution time: {execution_time:.2f} seconds" +:+ dq +:+ ")")
    (cell_source summary_cell) = 1 ∧
  occurrences "execution_time"
    (program_text [title_cell; imports_cell; summary_header_cell; summary_cell]) = 1.
Proof.
  repeat split; vm_compute; reflexivity.
Qed.

(* --------------------------------------------------------------------- *)
(** ** The timeout *)

(** C4, as stated, fails: the result of a timed-out run has no [stderr] entry
    and no [returncode] entry. *)
Lemma timeout_result_has_no_stderr :
  ∃ r, _execute_notebook timeout_world (preamble ++ closing) = Ok r ∧
       dict_lookup (KStr "stderr") (outputs r) = None ∧
       dict_lookup (KStr "returncode") (outputs r) = None.
Proof.
  eexists. repeat split; reflexivity.
Qed.

(** C4, amended. The runner never raises, and when the child process runs into
    the timeout it returns [success = False] with the marker
    "Execution timeout" under the key [error], and with neither a [stderr] nor
    a [returncode] entry. *)
Theorem timeout_result w nb script :
  (∃ r, _execute_notebook w nb = Ok r) ∧
  (mkdir_plots w = None → export_script w nb = Ok script → script_write w = None →
   subprocess_run w = Raise TimeoutExpired →
   ∃ r, _execute_notebook w nb = Ok r ∧
        success r = false ∧
        outputs r = [(KStr "error", VStr timeout_marker)] ∧
        dict_lookup (KStr "error") (outputs r) = Some (VStr "Execution timeout") ∧
        dict_lookup (KStr "stderr") (outputs r) = None ∧
        dict_lookup (KStr "returncode") (outputs r) = None ∧
        execution_time r = elapsed w).
Proof.
  split; [apply execute_notebook_returns|].
  intros H1 H2 H3 H4. unfold _execute_notebook. run_monad.
  rewrite H1, H2, H3, H4. simpl. eexists. repeat split; reflexivity.
Qed.

Lemma timeout_result_witness :
  ∃ r, _execute_notebook timeout_world (preamble ++ closing) = Ok r ∧
       success r = false ∧
       outputs r = [(KStr "error", VStr timeout_marker)] ∧
       dict_lookup (KStr "error") (outputs r) = Some (VStr "Execution timeout") ∧
       dict_lookup (KStr "stderr") (outputs r) = None ∧
       dict_lookup (KStr "returncode") (outputs r) = None ∧
       execution_time r = elapsed timeout_world.
Proof.
  apply (timeout_result timeout_world (preamble ++ closing)
           (program_text (preamble ++ closing))); reflexivity.
Defined.

(* --------------------------------------------------------------------- *)
(** ** Strings and the monad *)

Lemma append_cons c s t : String c s +:+ t = String c (s +:+ t).
Proof. reflexivity. Qed.

Lemma append_nil_l s : "" +:+ s = s.
Proof. reflexivity. Qed.

Lemma append_assoc s t u : (s +:+ t) +:+ u = s +:+ t +:+ u.
Proof.
  induction s as [|c s IH]; [done|].
  by rewrite !append_cons, IH.
Qed.

Lemma contains_mid pre s post : contains (pre +:+ s +:+ post) s.
Proof. by exists pre, post. Qed.

Lemma mapM_Ok {A B} (f : A → result B) l l' :
  mapM f l = Ok l' ↔ Forall2 (fun x y => f x = Ok y) l l'.
Proof.
  revert l'. induction l as [|x l IH]; intros l'; simpl.
  - split; [intros [= <-]; constructor | by inversion 1].
  - run_monad. split.
    + destruct (f x) as [y|e] eqn:Hx; [|done].
      destruct (mapM f l) as [ys|e] eqn:Hl; [|done].
      intros [= <-]. constructor; [done|]. by apply IH.
    + intros H. inversion H as [|? y ? ys Hy Hys]; subst.
      rewrite Hy. apply IH in Hys. by rewrite Hys.
Qed.

Lemma mapM_Ok_length {A B} (f : A → result B) l l' :
  mapM f l = Ok l' → length l' = length l.
Proof. intros H%mapM_Ok. symmetry. by eapply Forall2_length. Qed.

Lemma mapM_total {A B} (f : A → result B) l :
  Forall (fun x => ∃ y, f x = Ok y) l → ∃ l', mapM f l = Ok l'.
Proof.
  induction 1 as [|x l [y Hy] _ [ys Hys]]; simpl; [by eexists|].
  run_monad. rewrite Hy, Hys. by eexists.
Qed.

Lemma concat_pairs_length {A} (body : list (list A)) :
  Forall (fun b => length b = 2) body → length (concat body) = 2 * length body.
Proof.
  induction 1 as [|b body Hb _ IH]; simpl; [done|].
  rewrite length_app, Hb, IH. lia.
Qed.

(* --------------------------------------------------------------------- *)
(** ** The shape of the compiled document *)

Lemma step_cells_plain step :
  step_cells None step = code ← _generate_step_code step; Ok (step_block step code).
Proof. reflexivity. Qed.

(** C5, as stated, fails: the empty plan compiles to four blocks, not two. *)
Lemma empty_plan_has_four_blocks :
  ∃ nb, _create_notebook [] None = Ok nb ∧ length nb = 4 ∧
        length nb ≠ 2 * length (@nil pydict) + 2.
Proof. eexists. split; [reflexivity|]. split; [reflexivity|]. simpl. lia. Qed.

(** C5, amended. For a plan of N steps that all compile, and no overlay, the
    document is the two-block preamble (title, imports), then one header block
    and one code block per step, in plan order, then the two-block closing
    (summary header, summary code): 2N + 4 blocks. *)
Theorem create_notebook_shape (steps : list pydict) :
  Forall compiles steps →
  ∃ codes nb,
    mapM _generate_step_code steps = Ok codes ∧
    _create_notebook steps None = Ok nb ∧
    nb = preamble ++ concat (zip_with step_block steps codes) ++ closing ∧
    length nb = 2 * length steps + 4 ∧
    length preamble = 2 ∧ length closing = 2.
Proof.
  intros Hall.
  destruct (mapM_total _ _ Hall) as [codes Hcodes].
  assert (Hbody : mapM (step_cells None) steps = Ok (zip_with step_block steps codes)).
  { apply mapM_Ok. apply mapM_Ok in Hcodes. clear Hall.
    induction Hcodes as [|s c steps codes Hc _ IH]; simpl; constructor; [|done].
    rewrite step_cells_plain. run_monad. by rewrite Hc. }
  exists codes, (preamble ++ concat (zip_with step_block steps codes) ++ closing).
  split; [done|]. split; [|split; [done|]]; [|split; [|done]].
  - unfold _create_notebook. run_monad. by rewrite Hbody.
  - rewrite !length_app, concat_pairs_length.
    + rewrite length_zip_with, (mapM_Ok_length _ _ _ Hcodes). simpl. lia.
    + clear. revert codes. induction steps as [|s steps IH]; intros [|c codes]; simpl;
        constructor; auto.
Qed.

Lemma create_notebook_shape_witness :
  ∃ codes nb,
    mapM _generate_step_code [stats_step; unknown_step] = Ok codes ∧
    _create_notebook [stats_step; unknown_step] None = Ok nb ∧
    nb = preamble ++ concat (zip_with step_block [stats_step; unknown_step] codes) ++ closing ∧
    length nb = 2 * length [stats_step; unknown_step] + 4 ∧
    length preamble = 2 ∧ length closing = 2.
Proof.
  apply (create_notebook_shape [stats_step; unknown_step]).
  repeat constructor; eexists; reflexivity.
Defined.

(* --------------------------------------------------------------------- *)
(** ** Degradation of the step compiler *)

Lemma placeholder_contains_name step :
  contains (placeholder step) (py_str (dict_get "name" step)).
Proof.
  unfold placeholder, lines, cat; simpl.
  rewrite !append_assoc. apply contains_mid.
Qed.

Lemma placeholder_contains_number step :
  contains (placeholder step) (py_str (dict_get "step_number" step)).
Proof.
  unfold placeholder, lines, cat; simpl.
  exists ("# Execute: " +:+ py_str (dict_get "name" step) +:+ nl +:+
          "# Action: " +:+ py_str (dict_get "action" step) +:+ nl +:+
          "print(f" +:+ dq +:+ "Executing step "), (dq +:+ ")").
  by rewrite !append_assoc.
Qed.

(** C6, as stated, fails: a [create_plot] step without any parameter does not
    compile to the placeholder but to the histogram template of the empty
    column name, in which the name of the step does not occur. *)
Lemma create_plot_without_column_is_no_placeholder :
  _generate_step_code bare_plot_step = Ok (histogram_code "") ∧
  _generate_step_code bare_plot_step ≠ Ok (placeholder bare_plot_step) ∧
  is_substring "Plot" (histogram_code "") = false.
Proof.
  split; [reflexivity|]. split; [|vm_compute; reflexivity].
  vm_compute. discriminate.
Qed.

(** C6, amended. A step with an unrecognized action compiles, without raising,
    to the placeholder, which contains the name and the number of the step. A
    [compute_correlations], [compute_stats] or [create_plot] step whose
    [parameters] are a mapping that lacks the entries the action reads does
    not raise either: [compute_correlations] yields the placeholder, while
    [compute_stats] and [create_plot] yield their own template filled with the
    defaults. *)
Theorem step_compiler_degradation (step : pydict) :
  (recognized (dict_get "action" step) = false →
   _generate_step_code step = Ok (placeholder step)) ∧
  contains (placeholder step) (py_str (dict_get "name" step)) ∧
  contains (placeholder step) (py_str (dict_get "step_number" step)) ∧
  (∀ d, dict_get_or "parameters" (VDict []) step = VDict d →
     (dict_get "action" step = VStr "compute_correlations" →
      dict_lookup (KStr "columns") d = None →
      _generate_step_code step = Ok (placeholder step)) ∧
     (dict_get "action" step = VStr "compute_stats" →
      dict_lookup (KStr "columns") d = None →
      _generate_step_code step = Ok (compute_stats_code None)) ∧
     (dict_get "action" step = VStr "create_plot" →
      dict_lookup (KStr "plot_type") d = None →
      dict_lookup (KStr "column") d = None →
      _generate_step_code step = Ok (histogram_code "")) ∧
     (dict_get "action" step = VStr "create_plot" →
      dict_lookup (KStr "plot_type") d = Some (VStr "scatter") →
      dict_lookup (KStr "x") d = None →
      dict_lookup (KStr "y") d = None →
      _generate_step_code step = Ok (scatter_code "" ""))).
Proof.
  split; [|split; [apply placeholder_contains_name|split; [apply placeholder_contains_number|]]].
  - unfold recognized, _generate_step_code.
    intros H. repeat (apply orb_false_elim in H as [H ?]).
    by repeat match goal with Hb : py_eqb _ _ = false |- _ => rewrite Hb; clear Hb end.
  - intros d Hd. unfold _generate_step_code. rewrite Hd.
    repeat split.
    + intros -> Hc. simpl. run_monad. unfold dict_get_or. by rewrite Hc.
    + intros -> Hc. simpl. run_monad. unfold dict_get_or. by rewrite Hc.
    + intros -> Ht Hc. simpl. run_monad. unfold dict_get_or. by rewrite Ht, Hc.
    + intros -> Ht Hx Hy. simpl. run_monad. unfold dict_get_or. by rewrite Ht, Hx, Hy.
Qed.

Lemma step_compiler_degradation_witness :
  _generate_step_code unknown_step = Ok (placeholder unknown_step) ∧
  _generate_step_code bare_plot_step = Ok (histogram_code "").
Proof.
  split.
  - apply (step_compiler_degradation unknown_step). reflexivity.
  - apply (step_compiler_degradation bare_plot_step) with (d := []); reflexivity.
Defined.

(** Whatever its parameters, a [load_data] step does not compile: the
    generator raises, [NameError] once the parameters have been read. *)
Lemma load_data_never_compiles (step : pydict) :
  dict_get "action" step = VStr "load_data" →
  in_globals "df" = false ∧
  ∃ e, _generate_step_code step = Raise e ∧
       (∀ d ft, dict_get_or "parameters" (VDict []) step = VDict d →
                dict_get_or "file_type" (VStr "csv") d = VStr ft → e = NameError).
Proof.
  intros Ha. split; [reflexivity|].
  unfold _generate_step_code. rewrite Ha. simpl. run_monad.
  destruct (dict_get_or "parameters" (VDict []) step) as [| | | | |d] eqn:Hd;
    try (eexists; split; [reflexivity|]; intros; discriminate).
  simpl.
  destruct (dict_get_or "file_type" (VStr "csv") d) as [| | |ft| |] eqn:Hft;
    eexists; (split; [reflexivity|]); intros ? ? [= <-]; congruence.
Qed.

(** The plan of the repository's notebook test, a [load_data] step followed by
    a [compute_stats] step, does not compile. *)
Lemma load_then_stats_does_not_compile :
  _create_notebook [load_step; stats_step] None = Raise NameError.
Proof. reflexivity. Qed.

(* --------------------------------------------------------------------- *)
(** ** Lookup after a merge *)

Lemma key_eqb_norm k1 k2 : key_eqb k1 k2 = bool_decide (key_norm k1 = key_norm k2).
Proof.
  destruct k1 as [|b1|z1|s1], k2 as [|b2|z2|s2]; simpl; try done.
  - case_bool_decide as H; [apply Z.eqb_eq; congruence|].
    apply Z.eqb_neq. congruence.
  - case_bool_decide as H; [apply Z.eqb_eq; congruence|].
    apply Z.eqb_neq. congruence.
  - case_bool_decide as H; [apply Z.eqb_eq; congruence|].
    apply Z.eqb_neq. congruence.
  - case_bool_decide as H; [apply Z.eqb_eq; congruence|].
    apply Z.eqb_neq. congruence.
  - apply bool_decide_ext. split; congruence.
Qed.

Lemma dict_lookup_set k k' v d :
  dict_lookup k (dict_set k' v d) = if key_eqb k k' then Some v else dict_lookup k d.
Proof.
  induction d as [|[k0 v0] d IH]; simpl; [done|].
  rewrite !key_eqb_norm in *.
  destruct (bool_decide (key_norm k' = key_norm k0)) eqn:H0; simpl; rewrite !key_eqb_norm.
  - apply bool_decide_eq_true in H0. rewrite H0.
    by destruct (bool_decide (key_norm k = key_norm k0)).
  - rewrite IH.
    destruct (bool_decide (key_norm k = key_norm k0)) eqn:H1; [|done].
    apply bool_decide_eq_true in H1. apply bool_decide_eq_false in H0.
    rewrite bool_decide_eq_false_2; [done|congruence].
Qed.

Lemma dict_lookup_norm k k' d :
  key_norm k = key_norm k' → dict_lookup k d = dict_lookup k' d.
Proof.
  intros H. induction d as [|[k0 v0] d IH]; simpl; [done|].
  by rewrite !key_eqb_norm, H, IH.
Qed.

(** [{**a, **b}] has the value of [b] where [b] has the key, and the value of
    [a] elsewhere. *)
Lemma dict_merge_lookup a b k :
  dict_wf b = true →
  dict_lookup k (dict_merge a b)
  = match dict_lookup k b with
    | Some v => Some v
    | None => dict_lookup k a
    end.
Proof.
  unfold dict_merge. revert a.
  induction b as [|[k1 v1] b IH]; intros a Hwf; simpl in *; [done|].
  apply andb_prop in Hwf as [Hk1 Hwf].
  apply negb_true_iff, bool_decide_eq_false in Hk1.
  rewrite IH by done. rewrite dict_lookup_set.
  rewrite key_eqb_norm. case_bool_decide as Hk.
  - rewrite (dict_lookup_norm _ _ _ Hk).
    destruct (dict_lookup k1 b) eqn:E; [|done].
    exfalso. apply Hk1. by eexists.
  - done.
Qed.

(* --------------------------------------------------------------------- *)
(** ** The overlay *)

Lemma step_cells_Ok mods step cells :
  step_cells mods step = Ok cells ↔
  ∃ step' code, apply_modifications mods step = Ok step' ∧
                _generate_step_code step' = Ok code ∧
                cells = step_block step' code.
Proof.
  unfold step_cells. run_monad. split.
  - destruct (apply_modifications mods step) as [step'|]; [|done].
    destruct (_generate_step_code step') as [code|] eqn:Hc; [|done].
    intros [= <-]. by exists step', code.
  - intros (step' & code & -> & -> & ->). done.
Qed.

Lemma apply_modifications_untouched mods step step' :
  has_entry mods step = false →
  apply_modifications mods step = Ok step' → step' = step.
Proof.
  unfold has_entry, apply_modifications.
  destruct mods as [m|]; [|by intros _ [= <-]].
  destruct (py_truthy (VDict m)); simpl; [|by intros _ [= <-]].
  run_monad. destruct (py_contains _ _) as [[]|]; try done.
  by intros _ [= <-].
Qed.

Lemma apply_modifications_touched mods step step' :
  has_entry mods step = true →
  apply_modifications mods step = Ok step' →
  ∃ e, entry_of mods step = Ok (VDict e) ∧ step' = dict_merge step e.
Proof.
  unfold has_entry, apply_modifications, entry_of.
  destruct mods as [m|]; [|done].
  destruct (py_truthy (VDict m)); simpl; [|done].
  run_monad. destruct (py_contains _ _) as [[]|]; try done.
  intros _. destruct (overlay_entry m step) as [entry|]; [|done].
  unfold merge_step. destruct entry; try done.
  intros [= <-]. by eexists.
Qed.

Lemma step_cells_related mods step b b' :
  step_cells None step = Ok b → step_cells mods step = Ok b' →
  length b = 2 ∧ length b' = 2 ∧
  (has_entry mods step = false → b' = b) ∧
  (has_entry mods step = true →
   ∃ e code, entry_of mods step = Ok (VDict e) ∧
             _generate_step_code (dict_merge step e) = Ok code ∧
             b' = step_block (dict_merge step e) code).
Proof.
  intros (s0 & c0 & [= <-] & Hc0 & ->)%step_cells_Ok
         (s1 & c1 & Hs1 & Hc1 & ->)%step_cells_Ok.
  repeat split.
  - intros Hno. apply (apply_modifications_untouched _ _ _ Hno) in Hs1 as ->.
    congruence.
  - intros Hyes. destruct (apply_modifications_touched _ _ _ Hyes Hs1) as (e & He & ->).
    by exists e, c1.
Qed.

(** C7, as stated, fails: the plan compiles without overlay, and with an
    overlay for step 1 whose parameters are null the compilation raises, so
    that no document is produced and the blocks of step 2 are not either. *)
Lemma overlay_can_make_compilation_raise :
  (∃ nb, _create_notebook [stats_step; report_step] None = Ok nb ∧ length nb = 8) ∧
  has_entry (Some null_parameters_overlay) stats_step = true ∧
  has_entry (Some null_parameters_overlay) report_step = false ∧
  _create_notebook [stats_step; report_step] (Some null_parameters_overlay)
  = Raise AttributeError.
Proof.
  split; [eexists; split; reflexivity|]. repeat split; reflexivity.
Qed.

(** C7, amended. Compiling with an overlay produces a document exactly when
    every step, after its overlay entry is merged over it, compiles. When it
    does, and the plan compiles without the overlay too, both documents have
    the same preamble and closing, a step whose number has no entry in the
    overlay has the same two blocks in both, and a step whose number has an
    entry has the header and the fragment of the merged step, in which every
    field of the entry replaces the field of the original step. *)
Theorem overlay_frame (steps : list pydict) (mods : option pydict) :
  (Forall (fun s => ∃ cells, step_cells mods s = Ok cells) steps ↔
   ∃ nb', _create_notebook steps mods = Ok nb') ∧
  (∀ nb nb',
     _create_notebook steps None = Ok nb →
     _create_notebook steps mods = Ok nb' →
     ∃ body body',
       nb = preamble ++ concat body ++ closing ∧
       nb' = preamble ++ concat body' ++ closing ∧
       Forall3 (fun s b b' =>
                  length b = 2 ∧ length b' = 2 ∧
                  (has_entry mods s = false → b' = b) ∧
                  (has_entry mods s = true →
                   ∃ e code, entry_of mods s = Ok (VDict e) ∧
                             _generate_step_code (dict_merge s e) = Ok code ∧
                             b' = step_block (dict_merge s e) code))
               steps body body') ∧
  (∀ s e k, dict_wf e = true →
     dict_lookup k (dict_merge s e)
     = match dict_lookup k e with
       | Some v => Some v
       | None => dict_lookup k s
       end).
Proof.
  split; [|split; [|intros; by apply dict_merge_lookup]].
  - unfold _create_notebook. run_monad. split.
    + intros H%mapM_total. destruct H as [body ->]. by eexists.
    + intros [nb' H]. destruct (mapM (step_cells mods) steps) as [body|] eqn:Hb; [|done].
      apply mapM_Ok in Hb. clear H. induction Hb; constructor; eauto.
  - unfold _create_notebook. run_monad. intros nb nb'.
    destruct (mapM (step_cells None) steps) as [body|] eqn:Hb; [|done].
    destruct (mapM (step_cells mods) steps) as [body'|] eqn:Hb'; [|done].
    intros [= <-] [= <-]. exists body, body'. split; [done|]. split; [done|].
    apply mapM_Ok in Hb, Hb'. revert body' Hb'.
    induction Hb as [|s b steps body Hs _ IH]; intros body' Hb'.
    + inversion Hb'. constructor.
    + inversion Hb' as [|? b' ? body'' Hs' Hrest]; subst.
      constructor; [by apply step_cells_related | by apply IH].
Qed.

Lemma overlay_frame_witness :
  ∃ body body',
    [title_cell; imports_cell;
     Markdown "## Step 1: Statistics"; Code (compute_stats_code (Some "['x']"));
     Markdown "## Step 2: Report"; Code generate_report_code;
     summary_header_cell; summary_cell]
    = preamble ++ concat body ++ closing ∧
    [title_cell; imports_cell;
     Markdown "## Step 1: Statistics"; Code (compute_stats_code (Some "['y']"));
     Markdown "## Step 2: Report"; Code generate_report_code;
     summary_header_cell; summary_cell]
    = preamble ++ concat body' ++ closing ∧
    Forall3 (fun s b b' =>
               length b = 2 ∧ length b' = 2 ∧
               (has_entry (Some columns_overlay) s = false → b' = b) ∧
               (has_entry (Some columns_overlay) s = true →
                ∃ e code, entry_of (Some columns_overlay) s = Ok (VDict e) ∧
                          _generate_step_code (dict_merge s e) = Ok code ∧
                          b' = step_block (dict_merge s e) code))
            [stats_step; report_step] body body'.
Proof.
  apply (overlay_frame [stats_step; report_step] (Some columns_overlay)); reflexivity.
Defined.

(* --------------------------------------------------------------------- *)
(** ** Interpolation of parameter values *)






(* --------------------------------------------------------------------- *)
(** ** The tracker: progress *)



(** A record written by a step completion alone has its total stored as
    [None], and the status query answers with the error reply. *)
Lemma status_query_after_step_completion :
  reachable (handle_step_completion init "exec_p1" 1 true "t0" "t1" "t2") ∧
  get_execution_status (handle_step_completion init "exec_p1" 1 true "t0" "t1" "t2") "exec_p1"
  = StatusError TypeError.
Proof. split; [apply reach_step, reach_init | vm_compute; reflexivity]. Qed.



(* --------------------------------------------------------------------- *)
(** ** The tracker: status updates *)

(** C9, as stated, fails: an update that supplies no estimate does not keep
    the estimate of the record, it stores [None]. *)
Lemma update_drops_estimate :
  (executions estimated_monitor !! "exec_p1") ≫= (.!! "estimated_remaining")
  = Some (VStr "6 minutes") ∧
  (executions reupdated_monitor !! "exec_p1") ≫= (.!! "estimated_remaining")
  = Some VNone.
Proof. split; vm_compute; reflexivity. Qed.

(** C9, amended. An update stores the new status; a step count that is not
    supplied keeps the value the record had, and a supplied count other than 0
    replaces it; the estimate is stored as supplied, [None] when it is not;
    fields the update does not name are kept; exactly one INFO line with the
    new status is appended to the log of the execution; records and logs of
    other executions are untouched. *)
Theorem update_execution_status_merge (m : monitor) (execution_id new_status : string)
    (cur tot : option Z) (eta : option string) (now now_log : string) :
  let m' := update_execution_status m execution_id new_status cur tot eta now now_log in
  let old := default ∅ (executions m !! execution_id) in
  (∃ new, executions m' !! execution_id = Some new ∧
     new !! "status" = Some (VStr new_status) ∧
     (cur = None → rec_get "current_step" VNone new = rec_get "current_step" VNone old) ∧
     (tot = None → rec_get "total_steps" VNone new = rec_get "total_steps" VNone old) ∧
     (∀ z, cur = Some z → z ≠ 0%Z → new !! "current_step" = Some (VInt z)) ∧
     (∀ z, tot = Some z → z ≠ 0%Z → new !! "total_steps" = Some (VInt z)) ∧
     new !! "estimated_remaining" = Some (opt_str eta) ∧
     new !! "last_updated" = Some (VStr now) ∧
     (∀ k, k ∉ ["status"; "current_step"; "total_steps"; "estimated_remaining"; "last_updated"] →
           new !! k = old !! k)) ∧
  logs m' !! execution_id
  = Some (default [] (logs m !! execution_id) ++
          [{| timestamp := now_log; level := "INFO";
              message := "Status updated: " +:+ new_status; step := None |}]) ∧
  (∀ other, other ≠ execution_id →
     executions m' !! other = executions m !! other ∧ logs m' !! other = logs m !! other).
Proof.
  intros m' old. subst m'. unfold update_execution_status, add_log. simpl.
  fold old. split; [|split].
  - eexists. split; [apply lookup_insert_eq|].
    repeat split.
    + by simplify_map_eq.
    + intros ->. unfold rec_get. by simplify_map_eq.
    + intros ->. unfold rec_get. by simplify_map_eq.
    + intros z -> Hz. simplify_map_eq. simpl.
      by destruct (Z.eqb_spec z 0).
    + intros z -> Hz. simplify_map_eq. simpl.
      by destruct (Z.eqb_spec z 0).
    + by simplify_map_eq.
    + by simplify_map_eq.
    + intros k Hk. rewrite !lookup_insert_ne; [done|..];
        intros <-; apply Hk; set_solver.
  - by simplify_map_eq.
  - intros other Hne. split; by simplify_map_eq.
Qed.

Lemma update_execution_status_merge_witness :
  ∃ new, executions reupdated_monitor !! "exec_p1" = Some new ∧
         rec_get "total_steps" VNone new = VInt 4 ∧
         new !! "current_step" = Some (VInt 2).
Proof.
  destruct (update_execution_status_merge estimated_monitor "exec_p1" "running"
              (Some 2%Z) None None "t2" "t3") as [(new & Hnew & _ & _ & Htot & Hcur & _) _].
  exists new. split; [exact Hnew|]. split.
  - rewrite Htot by reflexivity. vm_compute. reflexivity.
  - apply (Hcur 2%Z); [reflexivity|lia].
Defined.

End Properties.

(* ===================================================================== *)
(** * Further properties of the tracker *)
(* ===================================================================== *)

Module TrackerFacts.
Import Monitor Notions MoreNotions Records Properties.

Lemma last50_length {A} (l : list A) : length (last50 l) = min 50 (length l).
Proof. unfold last50. rewrite length_drop. lia. Qed.

Lemma last50_suffix {A} (l : list A) : last50 l `suffix_of` l.
Proof. apply suffix_drop. Qed.

Lemma last50_short {A} (l : list A) : length l ≤ 50 → last50 l = l.
Proof. intros H. unfold last50. by replace (length l - 50) with 0 by lia. Qed.

Lemma status_ok_logs m id v :
  get_execution_status m id = StatusOk v → view_logs v = message <$> last50 (get_logs m id).
Proof.
  unfold get_execution_status, get_logs. run_monad.
  destruct (py_gt0 _) as [[]|]; try done;
    [destruct (py_percent _ _); try done|]; by intros [= <-].
Qed.

(** X1. The log messages of a status reply are the messages of the most recent
    log lines, in order: all of them when there are at most 50, else the last
    50. *)
Theorem status_logs_are_the_last_50 (m : monitor) (execution_id : string) (v : status_view) :
  get_execution_status m execution_id = StatusOk v →
  length (view_logs v) = min 50 (length (get_logs m execution_id)) ∧
  view_logs v `suffix_of` (message <$> get_logs m execution_id) ∧
  (length (get_logs m execution_id) ≤ 50 → view_logs v = message <$> get_logs m execution_id).
Proof.
  intros ->%status_ok_logs. repeat split.
  - by rewrite length_fmap, last50_length.
  - destruct (last50_suffix (get_logs m execution_id)) as [pre Hpre].
    exists (message <$> pre). by rewrite <- fmap_app, <- Hpre.
  - intros H. by rewrite last50_short.
Qed.

Lemma status_logs_are_the_last_50_witness :
  ∃ v, get_execution_status reupdated_monitor "exec_p1" = StatusOk v ∧
       length (view_logs v) = min 50 (length (get_logs reupdated_monitor "exec_p1")) ∧
       view_logs v `suffix_of` (message <$> get_logs reupdated_monitor "exec_p1") ∧
       (length (get_logs reupdated_monitor "exec_p1") ≤ 50 →
        view_logs v = message <$> get_logs reupdated_monitor "exec_p1").
Proof.
  eexists. split; [vm_compute; reflexivity|].
  eapply (status_logs_are_the_last_50 reupdated_monitor "exec_p1"). vm_compute. reflexivity.
Defined.

Lemma get_logs_add_log m id lvl msg stp now other :
  get_logs (add_log m id lvl msg stp now) other
  = if bool_decide (other = id)
    then get_logs m id ++ [{| timestamp := now; level := lvl; message := msg; step := stp |}]
    else get_logs m other.
Proof.
  unfold get_logs, add_log. simpl.
  case_bool_decide as H; [subst; by rewrite lookup_insert_eq|].
  by rewrite lookup_insert_ne.
Qed.

(** X2. [add_log] followed by [get_logs]: the new line is the last one of its
    execution, the earlier lines keep their order, the logs of every other
    execution and all status records are as before, also when the execution
    was not known. *)
Theorem add_log_then_get_logs (m : monitor) (execution_id lvl msg : string)
    (stp : option Z) (now other : string) :
  get_logs (add_log m execution_id lvl msg stp now) other
  = (if bool_decide (other = execution_id)
     then get_logs m execution_id ++
          [{| timestamp := now; level := lvl; message := msg; step := stp |}]
     else get_logs m other) ∧
  executions (add_log m execution_id lvl msg stp now) = executions m.
Proof. split; [apply get_logs_add_log | done]. Qed.

Lemma get_logs_update m id st cur tot eta now now_log other :
  get_logs (update_execution_status m id st cur tot eta now now_log) other
  = if bool_decide (other = id) then get_logs m id ++ [status_line st now_log]
    else get_logs m other.
Proof.
  unfold update_execution_status, get_logs, add_log, status_line. simpl.
  case_bool_decide as H; [subst; by rewrite lookup_insert_eq|].
  by rewrite lookup_insert_ne.
Qed.

(** X3. A step completion writes two log lines, the step line (INFO or ERROR) and
    then the line of the status update, sets the status to "running", stores
    the step number as the current step unless it is 0, keeps the total, and
    stores no estimate. *)
Theorem handle_step_completion_effect (m : monitor) (execution_id : string)
    (step_number : Z) (ok : bool) (now_step now now_log : string) :
  let m' := handle_step_completion m execution_id step_number ok now_step now now_log in
  let old := default ∅ (executions m !! execution_id) in
  get_logs m' execution_id
  = get_logs m execution_id ++
    [step_line step_number ok now_step; status_line "running" now_log] ∧
  ∃ r, executions m' !! execution_id = Some r ∧
       r !! "status" = Some (VStr "running") ∧
       r !! "current_step"
       = Some (if (step_number =? 0)%Z then rec_get "current_step" VNone old
               else VInt step_number) ∧
       r !! "total_steps" = Some (rec_get "total_steps" VNone old) ∧
       r !! "estimated_remaining" = Some VNone.
Proof.
  intros m' old. subst m'. unfold handle_step_completion. split.
  - rewrite get_logs_update, bool_decide_eq_true_2 by done.
    destruct ok; simpl;
      rewrite get_logs_add_log, bool_decide_eq_true_2 by done; by rewrite <- app_assoc.
  - assert (Hex : ∀ m1, executions m1 = executions m →
              ∃ r, executions (update_execution_status m1 execution_id "running"
                                 (Some step_number) None None now now_log) !! execution_id
                   = Some r ∧
                   r !! "status" = Some (VStr "running") ∧
                   r !! "current_step"
                   = Some (if (step_number =? 0)%Z then rec_get "current_step" VNone old
                           else VInt step_number) ∧
                   r !! "total_steps" = Some (rec_get "total_steps" VNone old) ∧
                   r !! "estimated_remaining" = Some VNone).
    { intros m1 Hm1. unfold update_execution_status, add_log. simpl. rewrite Hm1. fold old.
      eexists. split; [apply lookup_insert_eq|]. repeat split; by simplify_map_eq. }
    destruct ok; apply Hex; reflexivity.
Qed.

Lemma update_record m id st cur tot eta now now_log :
  executions (update_execution_status m id st cur tot eta now now_log) !! id
  = Some (<["last_updated" := VStr now]>
          (<["estimated_remaining" := opt_str eta]>
          (<["total_steps" := int_or tot (rec_get "total_steps" VNone
                                            (default ∅ (executions m !! id)))]>
          (<["current_step" := int_or cur (rec_get "current_step" VNone
                                             (default ∅ (executions m !! id)))]>
          (<["status" := VStr st]> (default ∅ (executions m !! id))))))).
Proof. unfold update_execution_status, add_log. simpl. apply lookup_insert_eq. Qed.

Lemma update_record_other m id st cur tot eta now now_log other :
  other ≠ id →
  executions (update_execution_status m id st cur tot eta now now_log) !! other
  = executions m !! other.
Proof.
  intros H. unfold update_execution_status, add_log. simpl. by rewrite lookup_insert_ne.
Qed.

(** X4. A status update that brings no total (none supplied, or 0) for an
    execution whose record has none stores [None] as the total, and the next
    status query runs into [None > 0]: it answers with the error reply. A step
    completion for an execution without a record is such an update. *)
Theorem status_query_fails_without_total (m : monitor) (execution_id new_status : string)
    (cur tot : option Z) (eta : option string) (now now_log : string) :
  (rec_get "total_steps" VNone (default ∅ (executions m !! execution_id)) = VNone →
   tot = None ∨ tot = Some 0%Z →
   get_execution_status
     (update_execution_status m execution_id new_status cur tot eta now now_log) execution_id
   = StatusError TypeError) ∧
  (∀ step_number ok now_step,
     executions m !! execution_id = None →
     get_execution_status
       (handle_step_completion m execution_id step_number ok now_step now now_log) execution_id
     = StatusError TypeError).
Proof.
  assert (Hgen : ∀ m1 cur1 tot1,
            rec_get "total_steps" VNone (default ∅ (executions m1 !! execution_id)) = VNone →
            tot1 = None ∨ tot1 = Some 0%Z →
            get_execution_status
              (update_execution_status m1 execution_id new_status cur1 tot1 eta now now_log)
              execution_id = StatusError TypeError).
  { intros m1 cur1 tot1 Hold Htot. unfold get_execution_status. rewrite update_record. simpl.
    assert (Hnew : int_or tot1 (rec_get "total_steps" VNone
                                 (default ∅ (executions m1 !! execution_id))) = VNone).
    { rewrite Hold. by destruct Htot as [-> | ->]. }
    rewrite Hnew. clear Hnew Hold. unfold rec_get. by simplify_map_eq. }
  split; [apply Hgen|].
  intros step_number ok now_step Hnone. unfold handle_step_completion.
  assert (Hrun : ∀ m1, executions m1 = executions m →
            get_execution_status
              (update_execution_status m1 execution_id "running" (Some step_number) None None
                 now now_log) execution_id = StatusError TypeError).
  { intros m1 Hm1. unfold get_execution_status. rewrite update_record, Hm1, Hnone. simpl.
    unfold rec_get. by simplify_map_eq. }
  destruct ok; apply Hrun; reflexivity.
Qed.

Lemma status_query_fails_without_total_witness :
  get_execution_status
    (update_execution_status init "exec_p1" "running" (Some 1%Z) None None "t1" "t2") "exec_p1"
  = StatusError TypeError ∧
  get_execution_status (handle_step_completion init "exec_p1" 1 true "t0" "t1" "t2") "exec_p1"
  = StatusError TypeError.
Proof.
  destruct (status_query_fails_without_total init "exec_p1" "running" (Some 1%Z) None None
              "t1" "t2") as [Hupdate Hstep].
  split.
  - apply Hupdate; [reflexivity | by left].
  - apply Hstep. reflexivity.
Defined.

(* --------------------------------------------------------------------- *)
(** ** The records of a reachable tracker *)

Lemma count_ok_int_or x prior : count_ok prior = true → count_ok (int_or x prior) = true.
Proof.
  intros H. destruct x as [z|]; simpl; [|done].
  destruct (Z.eqb_spec z 0); [done|]. simpl. apply negb_true_iff. by apply Z.eqb_neq.
Qed.

Lemma record_ok_counts r :
  record_ok r = true →
  ∃ cs ts, r !! "current_step" = Some cs ∧ count_ok cs = true ∧
           r !! "total_steps" = Some ts ∧ count_ok ts = true.
Proof.
  unfold record_ok, field_ok. intros H.
  repeat (apply andb_prop in H as [H ?]).
  destruct (r !! "current_step") as [cs|]; [|done].
  destruct (r !! "total_steps") as [ts|]; [|done].
  by exists cs, ts.
Qed.

Lemma count_ok_prior (o : option (gmap string pyval)) k :
  (∀ r, o = Some r → record_ok r = true) →
  k = "current_step" ∨ k = "total_steps" →
  count_ok (rec_get k VNone (default ∅ o)) = true.
Proof.
  intros Hok Hk. destruct o as [r|]; simpl; [|by destruct Hk as [-> | ->]].
  destruct (record_ok_counts r (Hok r eq_refl)) as (cs & ts & Hcs & Hcsok & Hts & Htsok).
  unfold rec_get. destruct Hk as [-> | ->]; [by rewrite Hcs | by rewrite Hts].
Qed.

Lemma tracker_ok_add_log m id lvl msg stp now :
  tracker_ok m → tracker_ok (add_log m id lvl msg stp now).
Proof.
  intros Hm id' r Hr. destruct (Hm id' r Hr) as [Hok Hlogs]. split; [done|].
  rewrite get_logs_add_log. case_bool_decide; [|done].
  by destruct (get_logs m id).
Qed.

Lemma tracker_ok_update m id st cur tot eta now now_log :
  tracker_ok m → tracker_ok (update_execution_status m id st cur tot eta now now_log).
Proof.
  intros Hm id' r. destruct (decide (id' = id)) as [->|Hne].
  - rewrite update_record. intros [= <-]. split.
    + assert (Hprior : ∀ r0, executions m !! id = Some r0 → record_ok r0 = true)
        by (intros r0 Hr0; by destruct (Hm id r0 Hr0)).
      unfold record_ok, field_ok. simplify_map_eq. simpl.
      rewrite !count_ok_int_or by (apply count_ok_prior; auto).
      by destruct eta.
    + rewrite get_logs_update, bool_decide_eq_true_2 by done.
      by destruct (get_logs m id).
  - rewrite update_record_other by done. intros Hr.
    destruct (Hm id' r Hr) as [Hok Hlogs]. split; [done|].
    by rewrite get_logs_update, bool_decide_eq_false_2.
Qed.

Lemma reachable_tracker_invariant m : reachable m → tracker_ok m.
Proof.
  induction 1 as [|m id lvl msg stp now _ IH|m id st cur tot eta now now_log _ IH
                  |m id n ok t1 t2 t3 _ IH].
  - intros id r Hr. simpl in Hr. by rewrite lookup_empty in Hr.
  - by apply tracker_ok_add_log.
  - by apply tracker_ok_update.
  - unfold handle_step_completion.
    destruct ok; by apply tracker_ok_update, tracker_ok_add_log.
Qed.

(** X5. In every state the tracker can be driven into, each record has a status
    and a time stamp that are strings, an estimate that is a string or [None],
    step counts that are [None] or integers other than 0 (a count of 0 is
    never stored), and at least one log line. *)
Theorem reachable_records_are_well_formed (m : monitor) :
  reachable m → tracker_ok m.
Proof. apply reachable_tracker_invariant. Qed.

Lemma reachable_records_are_well_formed_witness : tracker_ok reupdated_monitor.
Proof.
  apply (reachable_records_are_well_formed reupdated_monitor).
  apply reach_update, reach_update, reach_init.
Defined.



End TrackerFacts.

(* ===================================================================== *)
(** * Further properties of the executor *)
(* ===================================================================== *)

Module ExecutorFacts.
Import Executor Runner Notions MoreNotions Properties.

Lemma execute_notebook_cases w nb :
  (∃ script p, mkdir_plots w = None ∧ export_script w nb = Ok script ∧
               script_write w = None ∧ subprocess_run w = Ok p ∧
               _execute_notebook w nb
               = Ok {| outputs := process_outputs p; execution_time := elapsed w;
                       success := (returncode p =? 0)%Z |}) ∨
  (∃ v, (mkdir_plots w ≠ None ∨ (∃ e, export_script w nb = Raise e) ∨
         script_write w ≠ None ∨ ∃ e, subprocess_run w = Raise e) ∧
        _execute_notebook w nb
        = Ok {| outputs := [(KStr "error", v)]; execution_time := elapsed w;
                success := false |}).
Proof.
  unfold _execute_notebook. run_monad.
  destruct (mkdir_plots w) as [e|] eqn:H1.
  { right. destruct e; eexists; (split; [by left | reflexivity]). }
  destruct (export_script w nb) as [script|e] eqn:H2.
  2:{ right. destruct e; eexists; (split; [right; left; by eexists | reflexivity]). }
  destruct (script_write w) as [e|] eqn:H3.
  { right. destruct e; eexists; (split; [by right; right; left | reflexivity]). }
  destruct (subprocess_run w) as [p|e] eqn:H4.
  - left. by exists script, p.
  - right. destruct e; eexists; (split; [right; right; right; by eexists | reflexivity]).
Qed.


(** X7. The runner reports success exactly when the plots directory could be
    made, the notebook exported, the script written, and the child process
    ran to an exit status of 0. Its result has either the three outputs of the
    process, or the single entry [error]; the time is always the elapsed
    time. *)
Theorem execute_notebook_success_iff (w : world) (nb : notebook) :
  ∃ r, _execute_notebook w nb = Ok r ∧
       execution_time r = elapsed w ∧
       (success r = true ↔
        mkdir_plots w = None ∧ (∃ script, export_script w nb = Ok script) ∧
        script_write w = None ∧ ∃ p, subprocess_run w = Ok p ∧ returncode p = 0%Z) ∧
       ((∃ p, subprocess_run w = Ok p ∧ outputs r = process_outputs p) ∨
        (∃ v, outputs r = [(KStr "error", v)] ∧ success r = false)).
Proof.
  destruct (execute_notebook_cases w nb)
    as [(script & p & H1 & H2 & H3 & H4 & ->) | (v & Hbad & ->)];
    eexists; (split; [reflexivity|]); simpl; (split; [reflexivity|]); split.
  - split.
    + intros Hrc%Z.eqb_eq. eauto 10.
    + intros (_ & _ & _ & p' & Hp' & Hrc). rewrite H4 in Hp'. injection Hp' as <-.
      by apply Z.eqb_eq.
  - left. eauto.
  - split; [done|]. intros (Hm & [script Hs] & Hw & p & Hp & _).
    destruct Hbad as [?|[[e ?]|[?|[e ?]]]]; congruence.
  - right. eauto.
Qed.

Lemma execute_notebook_success_iff_witness :
  ∃ r, _execute_notebook no_renderer_world [] = Ok r ∧ success r = true.
Proof.
  destruct (execute_notebook_success_iff no_renderer_world [])
    as (r & Hr & _ & [_ Hsuccess] & _).
  exists r. split; [exact Hr|]. apply Hsuccess.
  split; [reflexivity|]. split; [by eexists|]. split; [reflexivity|].
  eexists. split; reflexivity.
Defined.

Lemma execute_plan_cases w plan steps mods :
  let exec_dir := path_join work_dir plan in
  (∃ e, (mkdir_exec_dir w = Some e ∨
         (mkdir_exec_dir w = None ∧ _create_notebook steps mods = Raise e) ∨
         (mkdir_exec_dir w = None ∧ (∃ nb, _create_notebook steps mods = Ok nb) ∧
          notebook_write w = Some e) ∨
         (mkdir_exec_dir w = None ∧ (∃ nb, _create_notebook steps mods = Ok nb) ∧
          notebook_write w = None ∧ report_write w = Some e)) ∧
        execute_plan w plan steps mods
        = Ok {| status := "failed"; plan_id := plan; notebook_path := None;
                report_path := None; outcome_outputs := None;
                outcome_execution_time := None; error := Some e |}) ∨
  (∃ nb r, mkdir_exec_dir w = None ∧ _create_notebook steps mods = Ok nb ∧
           notebook_write w = None ∧ report_write w = None ∧
           _execute_notebook w nb = Ok r ∧
           execute_plan w plan steps mods
           = Ok {| status := "success"; plan_id := plan;
                   notebook_path := Some (path_join exec_dir "analysis.ipynb");
                   report_path :=
                     Some (path_join exec_dir
                             (if pdf_render w is None then "report.pdf" else "report.md"));
                   outcome_outputs := Some (outputs r);
                   outcome_execution_time := Some (execution_time r);
                   error := None |}).
Proof.
  intros exec_dir. unfold execute_plan, _generate_report. run_monad.
  destruct (mkdir_exec_dir w) as [e|] eqn:H1; simpl.
  { left. exists e. split; [by left | done]. }
  destruct (_create_notebook steps mods) as [nb|e] eqn:H2; simpl.
  2:{ left. exists e. split; [right; left; done | done]. }
  destruct (notebook_write w) as [e|] eqn:H3; simpl.
  { left. exists e. split; [right; right; left; eauto | done]. }
  destruct (execute_notebook_returns w nb) as [r Hr]. rewrite Hr. simpl.
  destruct (report_write w) as [e|] eqn:H4; simpl.
  { left. exists e. split; [right; right; right; eauto | done]. }
  right. exists nb, r. repeat (split; [done|]).
  by destruct (pdf_render w).
Qed.





(* --------------------------------------------------------------------- *)
(** ** Plans with a [load_data] step *)

Lemma load_data_raises step :
  is_load_data step = true → ∃ e, _generate_step_code step = Raise e.
Proof.
  unfold is_load_data, _generate_step_code. intros ->. run_monad.
  destruct (py_get _ "file_type" _) as [ft|]; simpl; [|eauto].
  destruct (py_replace_dot ft); simpl; [|eauto].
  destruct (py_get _ "file_path" _); simpl; eauto.
Qed.

Lemma mapM_raises {A B} (f : A → result B) l x :
  x ∈ l → (∃ e, f x = Raise e) → ∃ e, mapM f l = Raise e.
Proof.
  intros Hin [e He]. induction Hin as [x l|x y l _ IH]; simpl; run_monad.
  - rewrite He. eauto.
  - destruct (f y) as [b|e0]; simpl; [|eauto]. destruct (IH He) as [e' ->]. eauto.
Qed.

(** X10. A plan that has a [load_data] step does not compile without an overlay:
    [_create_notebook] raises, and [execute_plan] reports "failed". *)
Theorem plan_with_load_data_fails (w : world) (plan : string) (steps : list pydict)
    (step : pydict) :
  step ∈ steps → is_load_data step = true →
  (∃ e, _create_notebook steps None = Raise e) ∧
  ∃ o e, execute_plan w plan steps None = Ok o ∧ status o = "failed" ∧ error o = Some e.
Proof.
  intros Hin Hload.
  assert (Hraise : ∃ e, _create_notebook steps None = Raise e).
  { unfold _create_notebook. run_monad.
    destruct (mapM_raises (step_cells None) steps step Hin) as [e ->]; [|eauto].
    rewrite step_cells_plain. run_monad.
    destruct (load_data_raises step Hload) as [e ->]. eauto. }
  split; [done|]. destruct Hraise as [e He].
  destruct (execute_plan_cases w plan steps None)
    as [(e' & _ & ->) | (nb & r & _ & Hnb & _)]; [|congruence].
  by eexists _, e'.
Qed.

Lemma plan_with_load_data_fails_witness :
  (∃ e, _create_notebook [stats_step; load_step] None = Raise e) ∧
  ∃ o e, execute_plan exit1_world "p1" [stats_step; load_step] None = Ok o ∧
         status o = "failed" ∧ error o = Some e.
Proof.
  apply (plan_with_load_data_fails exit1_world "p1" [stats_step; load_step] load_step).
  - apply list_elem_of_In. simpl. auto.
  - reflexivity.
Defined.

(* --------------------------------------------------------------------- *)
(** ** Overlays that do not apply *)

Lemma mapM_ext {A B} (f g : A → result B) l :
  Forall (fun x => f x = g x) l → mapM f l = mapM g l.
Proof.
  induction 1 as [|x l Hx _ IH]; simpl; [done|]. by rewrite Hx, IH.
Qed.

Lemma lookup_int_in_string_keys z table :
  Forall (fun kv : pykey * pyval => ∃ s, kv.1 = KStr s) table →
  dict_lookup (KInt z) table = None.
Proof.
  induction 1 as [|[k v] table [s Hs] _ IH]; simpl in *; [done|]. by subst.
Qed.

(** X11. An overlay never applies to a step whose number is an integer when the
    keys of its [steps] table are strings, as they are in every JSON body, or
    when it has no [steps] table: the document is the one compiled without
    overlay. The empty overlay changes nothing either. *)
Theorem overlay_with_string_keys_is_ignored (steps : list pydict) (m table : pydict) :
  _create_notebook steps (Some []) = _create_notebook steps None ∧
  (dict_get_or "steps" (VDict []) m = VDict table →
   Forall (fun kv => ∃ s, kv.1 = KStr s) table →
   Forall (fun step => ∃ z, dict_get "step_number" step = VInt z) steps →
   _create_notebook steps (Some m) = _create_notebook steps None).
Proof.
  split; [reflexivity|].
  intros Htable Hkeys Hnums. unfold _create_notebook. f_equal.
  apply mapM_ext. eapply Forall_impl; [exact Hnums|].
  intros step [z Hz]. unfold step_cells, apply_modifications.
  destruct (py_truthy (VDict m)); [|done].
  rewrite Hz, Htable. simpl. run_monad.
  by rewrite (lookup_int_in_string_keys z table Hkeys).
Qed.

Lemma overlay_with_string_keys_is_ignored_witness :
  _create_notebook [stats_step; report_step] (Some json_overlay)
  = _create_notebook [stats_step; report_step] None.
Proof.
  apply (overlay_with_string_keys_is_ignored [stats_step; report_step] json_overlay
           [(KStr "1", VDict [(KStr "action", VStr "generate_report")])]).
  - reflexivity.
  - repeat constructor. by eexists.
  - repeat constructor; by eexists.
Defined.

(* --------------------------------------------------------------------- *)
(** ** Texts *)

#[local] Arguments String.append !_ _ /.

Lemma append_nil_r s : s +:+ "" = s.
Proof. induction s as [|c s IH]; [done|]. simpl. by rewrite IH. Qed.

Ltac str_norm :=
  unfold cat, lines, join, nl, dq, sq;
  repeat (rewrite ?append_assoc, ?append_nil_r; simpl).

(** X12. Every report starts with the same head, which ends in the sentence
    "Analysis completed successfully."; the report of a run that did not
    succeed is that head and nothing more, so neither the error nor the
    standard error of the run is written. A run that succeeded adds its time,
    and its standard output in a fenced block when that is not empty. Writing
    the text never fails for a result of the runner. *)
Theorem report_text_of_a_run (fmt2f : Q → string) (now : string) (run : run_result) :
  (∀ text, Report.report_markdown fmt2f now run = Ok text →
           ∃ rest, text = report_head now +:+ rest) ∧
  (success run = false → Report.report_markdown fmt2f now run = Ok (report_head now)) ∧
  (success run = true → py_truthy (dict_get "stdout" (outputs run)) = false →
   Report.report_markdown fmt2f now run
   = Ok (report_head now +:+
         lines ["Execution time: " +:+ fmt2f (execution_time run) +:+ " seconds"; ""; ""])) ∧
  (∀ text, success run = true → dict_get "stdout" (outputs run) = VStr text → text ≠ "" →
   Report.report_markdown fmt2f now run
   = Ok (report_head now +:+
         lines ["Execution time: " +:+ fmt2f (execution_time run) +:+ " seconds"; "";
                "## Execution Log"; ""; fenced text; ""; ""])) ∧
  (∀ w nb, _execute_notebook w nb = Ok run →
           ∃ text, Report.report_markdown fmt2f now run = Ok text).
Proof.
  assert (Hfail : success run = false →
                  Report.report_markdown fmt2f now run = Ok (report_head now)).
  { intros H. unfold Report.report_markdown, report_head. rewrite H. f_equal. by str_norm. }
  assert (Hquiet : success run = true → py_truthy (dict_get "stdout" (outputs run)) = false →
                   Report.report_markdown fmt2f now run
                   = Ok (report_head now +:+
                         lines ["Execution time: " +:+ fmt2f (execution_time run) +:+
                                " seconds"; ""; ""])).
  { intros H Hs. unfold Report.report_markdown, report_head. rewrite H, Hs. f_equal.
    by str_norm. }
  assert (Hlog : ∀ text, success run = true → dict_get "stdout" (outputs run) = VStr text →
                 text ≠ "" →
                 Report.report_markdown fmt2f now run
                 = Ok (report_head now +:+
                       lines ["Execution time: " +:+ fmt2f (execution_time run) +:+ " seconds";
                              ""; "## Execution Log"; ""; fenced text; ""; ""])).
  { intros text H Hs Hne. unfold Report.report_markdown, report_head, fenced, dict_item.
    rewrite H, Hs. unfold dict_get in Hs.
    destruct (dict_lookup (KStr "stdout") (outputs run)) as [v|]; [|done].
    simpl in Hs. subst v. simpl. rewrite bool_decide_eq_false_2 by done. simpl.
    run_monad. f_equal. by str_norm. }
  split; [|split; [done|split; [done|split; [done|]]]].
  - intros text. destruct (success run) eqn:Hs.
    2:{ rewrite Hfail by done. intros [= <-]. exists "". by rewrite append_nil_r. }
    destruct (py_truthy (dict_get "stdout" (outputs run))) eqn:Ht.
    2:{ rewrite Hquiet by done. intros [= <-]. by eexists. }
    destruct (dict_get "stdout" (outputs run)) as [| | |out| |] eqn:Hout.
    4:{ rewrite (Hlog out) by (try done; intros ->; done). intros [= <-]. by eexists. }
    all: unfold Report.report_markdown, dict_item; rewrite Hs, Hout, Ht;
      unfold dict_get in Hout;
      destruct (dict_lookup (KStr "stdout") (outputs run)) as [v|]; simpl in Hout;
      subst; done.
  - intros w nb Hrun.
    destruct (execute_notebook_cases w nb) as [(? & p & _ & _ & _ & _ & Hr) | (v & _ & Hr)];
      rewrite Hr in Hrun; injection Hrun as <-.
    + destruct (returncode p =? 0)%Z eqn:Hrc; [|rewrite Hfail by done; eauto].
      destruct (decide (stdout p = "")) as [Hempty|Hne].
      * rewrite Hquiet; [eauto | done |]. simpl. by rewrite Hempty.
      * rewrite (Hlog (stdout p)); [eauto | done | done | done].
    + rewrite Hfail by done. eauto.
Qed.

Lemma report_text_of_a_run_witness :
  Report.report_markdown (fun _ => "2.00") "2024-01-01 10:00:00"
    {| outputs := [(KStr "error", VStr timeout_marker)]; execution_time := 300;
       success := false |}
  = Ok (report_head "2024-01-01 10:00:00").
Proof.
  apply (report_text_of_a_run (fun _ => "2.00") "2024-01-01 10:00:00"
           {| outputs := [(KStr "error", VStr timeout_marker)]; execution_time := 300;
              success := false |}).
  reflexivity.
Defined.

(** X13. A [create_plot] step whose parameters are a mapping always compiles. With
    plot type "scatter" the fragment plots column [x] against column [y] and
    saves the figure as [plots/<x>_<y>_scatter.png]. With a plot type other
    than "histogram" and "scatter" the step gets the placeholder of an unknown
    action, although its action is known: no figure is drawn. *)
Theorem create_plot_by_plot_type (step ps : pydict) :
  dict_get "action" step = VStr "create_plot" →
  dict_get_or "parameters" (VDict []) step = VDict ps →
  (∃ code, _generate_step_code step = Ok code) ∧
  (∀ x y, dict_get_or "plot_type" (VStr "histogram") ps = VStr "scatter" →
          dict_get_or "x" (VStr "") ps = VStr x → dict_get_or "y" (VStr "") ps = VStr y →
          _generate_step_code step = Ok (scatter_code x y) ∧
          contains (scatter_code x y)
            ("plt.scatter(df['" +:+ x +:+ "'], df['" +:+ y +:+ "'], alpha=0.6)") ∧
          contains (scatter_code x y)
            ("plt.savefig(f'plots/" +:+ x +:+ "_" +:+ y +:+ "_scatter.png',")) ∧
  (py_eqb (dict_get_or "plot_type" (VStr "histogram") ps) (VStr "histogram") = false →
   py_eqb (dict_get_or "plot_type" (VStr "histogram") ps) (VStr "scatter") = false →
   _generate_step_code step = Ok (placeholder step)).
Proof.
  intros Ha Hps. unfold _generate_step_code. rewrite Ha, Hps. simpl. run_monad.
  unfold default_column. split; [|split].
  - destruct (py_eqb _ (VStr "histogram")); [eauto|].
    destruct (py_eqb _ (VStr "scatter")); eauto.
  - intros x y -> -> ->. simpl. split; [done|]. split.
    + exists (lines ["# Create scatter plot"; "plt.figure(figsize=(10, 6))"; ""]),
             (lines [""; cat ["plt.title(f'"; y; " vs "; x; "')"]; "plt.xlabel(x_col)";
                     "plt.ylabel(y_col)"; "plt.grid(True, alpha=0.3)";
                     cat ["plt.savefig(f'plots/"; x; "_"; y;
                          "_scatter.png', dpi=300, bbox_inches='tight')"];
                     "plt.show()"]).
      unfold scatter_code. by str_norm.
    + exists (lines ["# Create scatter plot"; "plt.figure(figsize=(10, 6))";
                     cat ["plt.scatter(df['"; x; "'], df['"; y; "'], alpha=0.6)"];
                     cat ["plt.title(f'"; y; " vs "; x; "')"]; "plt.xlabel(x_col)";
                     "plt.ylabel(y_col)"; "plt.grid(True, alpha=0.3)"; ""]),
             (lines [" dpi=300, bbox_inches='tight')"; "plt.show()"]).
      unfold scatter_code. by str_norm.
  - by intros -> ->.
Qed.

Lemma create_plot_by_plot_type_witness :
  _generate_step_code (scatter_step "dose" "response") = Ok (scatter_code "dose" "response") ∧
  _generate_step_code pie_step = Ok (placeholder pie_step).
Proof.
  split.
  - apply (create_plot_by_plot_type (scatter_step "dose" "response")
             [(KStr "plot_type", VStr "scatter"); (KStr "x", VStr "dose");
              (KStr "y", VStr "response")]); reflexivity.
  - apply (create_plot_by_plot_type pie_step [(KStr "plot_type", VStr "pie")]); reflexivity.
Defined.

End ExecutorFacts.

(* ===================================================================== *)
(** * Properties of the mock vector store *)
(* ===================================================================== *)

Module StoreFacts.
Import VectorStore MoreNotions.

Lemma search_positive (mock_data : list document) (query : string) (top_k : Z) :
  (0 < top_k)%Z →
  search mock_data query top_k
  = to_result <$> filter (fun d => keyword_match query (doc_text d) = true)
                         (drop (length mock_data - Z.to_nat top_k) mock_data).
Proof.
  intros Hk. unfold search, _search_mock, slice_from, slice_to.
  destruct (Z.ltb_spec (- top_k) 0) as [_|]; [|lia].
  destruct (Z.ltb_spec top_k 0) as [|_]; [lia|].
  replace (Z.to_nat (Z.of_nat (length mock_data) + - top_k))
    with (length mock_data - Z.to_nat top_k) by lia.
  apply take_ge. rewrite length_fmap.
  etrans; [apply length_filter|]. rewrite length_drop. lia.
Qed.

(** X14. For a positive [top_k] the mock search looks at the [top_k] documents
    added last and at no other: it returns those of them whose text has one of
    the words of the query, in the order they were added, so at most [top_k]
    results. *)
Theorem search_inspects_the_most_recent (mock_data : list document) (query : string)
    (top_k : Z) :
  (0 < top_k)%Z →
  search mock_data query top_k
  = to_result <$> filter (fun d => keyword_match query (doc_text d) = true)
                         (drop (length mock_data - Z.to_nat top_k) mock_data) ∧
  length (search mock_data query top_k) ≤ Z.to_nat top_k ∧
  ∀ r, r ∈ search mock_data query top_k →
       ∃ d, d ∈ mock_data ∧ r = to_result d ∧ keyword_match query (doc_text d) = true.
Proof.
  intros Hk. rewrite search_positive by done. split; [done|]. split.
  - rewrite length_fmap. etrans; [apply length_filter|]. rewrite length_drop. lia.
  - intros r (d & -> & Hd)%list_elem_of_fmap.
    apply list_elem_of_filter in Hd as [Hmatch Hd].
    exists d. split; [|done]. eapply subseteq_drop, Hd.
Qed.

Lemma search_inspects_the_most_recent_witness :
  search [sop_document; sop_document] "sensor drift" 1 = [to_result sop_document].
Proof.
  destruct (search_inspects_the_most_recent [sop_document; sop_document] "sensor drift" 1)
    as [-> _]; [lia|]. reflexivity.
Defined.

(** X15. A document that was just added is found: for a positive [top_k] and a
    query one of whose words occurs in its text, whatever the case of the
    letters, it is the last result, under the id it was given (the supplied
    one unless that is empty or missing) and with its text and metadata. *)
Theorem added_document_is_found (mock_data : list document) (text : string)
    (metadata : option pydict) (id : option string) (uuid query : string) (top_k : Z) :
  (0 < top_k)%Z → keyword_match query text = true →
  ∃ earlier,
    search (_add_document_mock mock_data text metadata id uuid).2 query top_k
    = earlier ++ [{| res_id := (_add_document_mock mock_data text metadata id uuid).1;
                     res_score := 8 # 10;
                     res_metadata := default [] metadata;
                     res_text := text |}] ∧
    (_add_document_mock mock_data text metadata id uuid).1 = str_or id uuid.
Proof.
  intros Hk Hmatch. rewrite search_positive by done. simpl.
  rewrite length_app. simpl.
  rewrite drop_app_le by lia. rewrite filter_app, fmap_app.
  eexists. split; [|done]. f_equal.
  rewrite filter_cons_True by done. done.
Qed.

Lemma added_document_is_found_witness :
  ∃ earlier,
    search (_add_document_mock [sop_document] "Sensor drift log" None (Some "") "u-1").2
           "SENSOR" 5
    = earlier ++ [{| res_id := "u-1"; res_score := 8 # 10; res_metadata := [];
                     res_text := "Sensor drift log" |}].
Proof.
  destruct (added_document_is_found [sop_document] "Sensor drift log" None (Some "") "u-1"
              "SENSOR" 5) as (earlier & H & _); [lia | reflexivity |].
  exists earlier. exact H.
Defined.

Lemma split_all_space s : all_space s = true → split s = [].
Proof.
  induction s as [|c s IH]; [done|]. simpl.
  intros [Hc Hs]%andb_prop. rewrite Hc. by apply IH.
Qed.

(** X16. A search with [top_k = 0] returns nothing, although it scans every
    document, and so does a query without a word (empty, or white space
    only). *)
Theorem search_without_results (mock_data : list document) (query : string) (top_k : Z) :
  search mock_data query 0 = [] ∧
  (all_space query = true → search mock_data query top_k = []).
Proof.
  split; [done|]. intros Hq%split_all_space.
  unfold search, _search_mock, keyword_match. rewrite Hq. simpl.
  assert (Hnone : ∀ l : list document, filter (fun _ => false = true) l = []).
  { induction l as [|d l IH]; [done|]. rewrite filter_cons.
    by destruct (decide (false = true)). }
  rewrite Hnone. unfold slice_to. simpl. destruct (top_k <? 0)%Z; apply take_nil.
Qed.

Lemma search_without_results_witness :
  search [sop_document] "   " 5 = [].
Proof.
  apply (search_without_results [sop_document] "   " 5). reflexivity.
Defined.

Lemma lower_char_idemp c : lower_char (lower_char c) = lower_char c.
Proof. destruct c as [[] [] [] [] [] [] [] []]; reflexivity. Qed.

Lemma is_space_lower_char c : is_space (lower_char c) = is_space c.
Proof. destruct c as [[] [] [] [] [] [] [] []]; reflexivity. Qed.

Lemma lower_idemp s : lower (lower s) = lower s.
Proof. induction s as [|c s IH]; [done|]. simpl. by rewrite lower_char_idemp, IH. Qed.

Lemma split_cons c r :
  split (String c r)
  = if is_space c then split r
    else match r with
         | EmptyString => [String c ""]
         | String c' _ =>
             if is_space c' then String c "" :: split r
             else match split r with
                  | w :: ws => String c w :: ws
                  | [] => [String c ""]
                  end
         end.
Proof. reflexivity. Qed.

Lemma split_lower s : split (lower s) = lower <$> split s.
Proof.
  induction s as [|c r IH]; [done|].
  change (lower (String c r)) with (String (lower_char c) (lower r)).
  rewrite (split_cons (lower_char c)), (split_cons c), is_space_lower_char.
  destruct (is_space c); [done|].
  destruct r as [|c' r']; [done|].
  rewrite IH.
  change (lower (String c' r')) with (String (lower_char c') (lower r')).
  cbv iota. rewrite is_space_lower_char.
  destruct (is_space c'); [done|]. by destruct (split (String c' r')).
Qed.

(** X17. The mock search does not tell capital from small letters, neither in the
    query nor in the texts: lowering either leaves every match as it is. *)
Theorem keyword_match_ignores_case (query text : string) :
  keyword_match (lower query) text = keyword_match query text ∧
  keyword_match query (lower text) = keyword_match query text.
Proof.
  unfold keyword_match. split.
  - rewrite split_lower. induction (split query) as [|k ks IH]; [done|].
    rewrite fmap_cons. cbn [existsb]. by rewrite lower_idemp, IH.
  - by rewrite lower_idemp.
Qed.

End StoreFacts.

(* ===================================================================== *)
(** * Properties of the mock planner *)
(* ===================================================================== *)

Module PlannerFacts.
Import Executor Runner VectorStore Planner Notions MoreNotions Properties.

Lemma mock_plan_cases info cols :
  numeric_is info cols →
  ∃ plan, _generate_mock_plan info = Ok plan ∧
          dataset_characteristics plan = info ∧
          ((cols = [] ∧ steps plan = [load_of info; stats_of cols; report_of 3] ∧
            estimated_duration plan = "6 minutes") ∨
           (∃ c, cols = [c] ∧
                 steps plan = [load_of info; stats_of cols; plot_of c; report_of 4] ∧
                 estimated_duration plan = "8 minutes") ∨
           (∃ c c' rest, cols = c :: c' :: rest ∧
                 steps plan = [load_of info; stats_of cols; plot_of c;
                               correlations_of cols; report_of 5] ∧
                 estimated_duration plan = "10 minutes")).
Proof.
  intros [H|[H ->]]; unfold _generate_mock_plan, dict_get, dict_get_or, dict_item;
    rewrite H; simpl.
  - destruct cols as [|c [|c' rest]]; simpl.
    + eexists. split; [reflexivity|]. split; [reflexivity|]. left. by repeat split.
    + eexists. split; [reflexivity|]. split; [reflexivity|]. right. left.
      exists c. by repeat split.
    + eexists. split; [reflexivity|]. split; [reflexivity|]. right. right.
      exists c, c', rest. by repeat split.
  - eexists. split; [reflexivity|]. split; [reflexivity|]. left. by repeat split.
Qed.

(** X18. The steps of a mock plan are numbered 1, 2, ... in the order of the plan,
    so no number occurs twice. There are three steps (load, statistics,
    report), one more (plot) when there is a numeric column and one more
    (correlations) when there are two, and the estimated duration is two
    minutes a step. *)
Theorem mock_plan_numbering (info : pydict) (cols : list pyval) :
  numeric_is info cols →
  ∃ plan, _generate_mock_plan info = Ok plan ∧
          dict_get "step_number" <$> steps plan
          = (fun n => VInt (Z.of_nat n)) <$> seq 1 (length (steps plan)) ∧
          length (steps plan)
          = 3 + (if cols is [] then 0 else 1) + (if Nat.leb 2 (length cols) then 1 else 0) ∧
          dict_get "action" <$> steps plan
          = [VStr "load_data"; VStr "compute_stats"] ++
            (if cols is [] then [] else [VStr "create_plot"]) ++
            (if Nat.leb 2 (length cols) then [VStr "compute_correlations"] else []) ++
            [VStr "generate_report"] ∧
          estimated_duration plan
          = pretty (Z.of_nat (2 * length (steps plan))) +:+ " minutes".
Proof.
  intros H. destruct (mock_plan_cases info cols H)
    as (plan & Hplan & _ &
        [(-> & Hs & Hd)|[(c & -> & Hs & Hd)|(c & c' & rest & -> & Hs & Hd)]]);
    exists plan; (split; [exact Hplan|]); rewrite Hs, Hd; by repeat split.
Qed.

Lemma mock_plan_numbering_witness :
  ∃ plan, _generate_mock_plan [(KStr "numeric_columns", VList [VStr "temp"; VStr "ph"])]
          = Ok plan ∧
          dict_get "step_number" <$> steps plan = [VInt 1; VInt 2; VInt 3; VInt 4; VInt 5].
Proof.
  destruct (mock_plan_numbering [(KStr "numeric_columns", VList [VStr "temp"; VStr "ph"])]
              [VStr "temp"; VStr "ph"]) as (plan & Hplan & Hnum & Hlen & _); [by left|].
  exists plan. split; [exact Hplan|]. rewrite Hnum, Hlen. reflexivity.
Defined.

(** X19. The mock plan computes statistics over all numeric columns, plots the
    histogram of the first one under a name that shows it, correlates the
    first five, and ends with the report step, whose number is the number of
    steps. *)
Theorem mock_plan_columns (info : pydict) (cols : list pyval) :
  numeric_is info cols →
  ∃ plan, _generate_mock_plan info = Ok plan ∧
          steps plan !! 1 = Some (stats_of cols) ∧
          (∀ c rest, cols = c :: rest → steps plan !! 2 = Some (plot_of c)) ∧
          (2 ≤ length cols → steps plan !! 3 = Some (correlations_of cols)) ∧
          last (steps plan) = Some (report_of (length (steps plan))).
Proof.
  intros H. destruct (mock_plan_cases info cols H)
    as (plan & Hplan & _ &
        [(-> & Hs & _)|[(c & -> & Hs & _)|(c & c' & rest & -> & Hs & _)]]);
    exists plan; (split; [exact Hplan|]); rewrite Hs; (split; [done|]); split.
  - by intros c rest.
  - split; [simpl; lia | done].
  - by intros c0 rest [= <- <-].
  - split; [simpl; lia | done].
  - by intros c0 rest0 [= <- <-].
  - by split.
Qed.

Lemma mock_plan_columns_witness :
  ∃ plan, _generate_mock_plan
            [(KStr "numeric_columns",
              VList [VStr "a"; VStr "b"; VStr "c"; VStr "d"; VStr "e"; VStr "f"])] = Ok plan ∧
          steps plan !! 3
          = Some (correlations_of [VStr "a"; VStr "b"; VStr "c"; VStr "d"; VStr "e"; VStr "f"]).
Proof.
  destruct (mock_plan_columns
              [(KStr "numeric_columns",
                VList [VStr "a"; VStr "b"; VStr "c"; VStr "d"; VStr "e"; VStr "f"])]
              [VStr "a"; VStr "b"; VStr "c"; VStr "d"; VStr "e"; VStr "f"])
    as (plan & Hplan & _ & _ & Hcorr & _); [by left|].
  exists plan. split; [exact Hplan|]. apply Hcorr. simpl. lia.
Defined.

(* --------------------------------------------------------------------- *)
(** ** From the dataset to the plan *)

Lemma analysis_shape p :
  dict_lookup (KStr "file_path") (_analyze_dataset p) = None ∧
  (∃ cols, numeric_is (_analyze_dataset p) cols) ∧
  (dict_get_or "file_type" (VStr ".csv") (_analyze_dataset p) = VStr ".csv" ∨
   dict_get_or "file_type" (VStr ".csv") (_analyze_dataset p) = VStr (path_suffix p)).
Proof.
  unfold _analyze_dataset.
  assert (Herr : ∀ v, dict_lookup (KStr "file_path") [(KStr "error", v)] = None ∧
                      (∃ cols, numeric_is [(KStr "error", v)] cols) ∧
                      (dict_get_or "file_type" (VStr ".csv") [(KStr "error", v)] = VStr ".csv" ∨
                       dict_get_or "file_type" (VStr ".csv") [(KStr "error", v)]
                       = VStr (path_suffix p))).
  { intros v. split; [done|]. split; [|by left]. exists []. by right. }
  assert (Hload : ∀ load : result frame,
            let r := (df ← load; size ← st_size p;
                      Ok (analysis_of (path_suffix p) size df)) in
            dict_lookup (KStr "file_path")
              (match r with Ok info => info | Raise e => [(KStr "error", error_value e)] end)
            = None ∧
            (∃ cols, numeric_is
                       (match r with Ok info => info
                                   | Raise e => [(KStr "error", error_value e)] end) cols) ∧
            (dict_get_or "file_type" (VStr ".csv")
               (match r with Ok info => info | Raise e => [(KStr "error", error_value e)] end)
             = VStr ".csv" ∨
             dict_get_or "file_type" (VStr ".csv")
               (match r with Ok info => info | Raise e => [(KStr "error", error_value e)] end)
             = VStr (path_suffix p))).
  { intros load r. subst r. run_monad.
    destruct load as [df|e]; [|apply Herr].
    destruct (st_size p) as [size|e]; [|apply Herr]. simpl.
    split; [done|]. split; [|by right]. exists (numeric_columns df). by left. }
  case_bool_decide; [apply Hload|]. case_bool_decide; [apply Hload|]. apply Herr.
Qed.

Lemma generate_plan_mock p mock_data :
  generate_plan p mock_data = _generate_mock_plan (_analyze_dataset p).
Proof. unfold generate_plan, try_except. by destruct (_generate_mock_plan _). Qed.

(** X20. In mock mode planning never fails, whatever the dataset: a file that
    cannot be read or has an unsupported type still gets the three-step plan.
    The plan has three to five steps, and its first step, the loading step,
    never names the dataset: the analysis has no [file_path] entry, so the
    path of the step is the empty string. *)
Theorem mock_planning_never_fails (p : probe) (mock_data : list document) :
  ∃ plan file_type,
    generate_plan p mock_data = Ok plan ∧
    3 ≤ length (steps plan) ≤ 5 ∧
    dataset_characteristics plan = _analyze_dataset p ∧
    (file_type = ".csv" ∨ file_type = path_suffix p) ∧
    steps plan !! 0
    = Some (make_step 1 "Data Loading and Validation" "load_data"
              [(KStr "file_path", VStr ""); (KStr "file_type", VStr file_type)]
              "validated_dataframe" "30s").
Proof.
  rewrite generate_plan_mock.
  destruct (analysis_shape p) as (Hpath & [cols Hcols] & Hft).
  destruct (mock_plan_cases _ cols Hcols) as (plan & Hplan & Hinfo & Hsteps).
  assert (Hload : ∃ ft, (ft = ".csv" ∨ ft = path_suffix p) ∧
                        load_of (_analyze_dataset p)
                        = make_step 1 "Data Loading and Validation" "load_data"
                            [(KStr "file_path", VStr ""); (KStr "file_type", VStr ft)]
                            "validated_dataframe" "30s").
  { unfold load_of. unfold dict_get_or at 1. rewrite Hpath. simpl.
    destruct Hft as [-> | ->]; eexists; (split; [|reflexivity]); auto. }
  destruct Hload as (ft & Hftwhich & Hload).
  exists plan, ft. split; [exact Hplan|].
  destruct Hsteps as [(_ & Hs & _)|[(c & _ & Hs & _)|(c & c' & rest & _ & Hs & _)]];
    rewrite Hs; simpl; rewrite <- Hload; repeat split; try done; lia.
Qed.

(** X21. No plan of the mock planner can be executed: for every dataset and in
    every world [execute_plan] reports "failed" for the planned steps, since
    the first of them is a [load_data] step; when the workspace can be made
    the error is the [NameError] of the step compiler. *)
Theorem mock_plans_never_execute (p : probe) (mock_data : list document) (w : world)
    (plan_id : string) :
  ∃ plan o,
    generate_plan p mock_data = Ok plan ∧
    execute_plan w plan_id (steps plan) None = Ok o ∧
    status o = "failed" ∧
    (mkdir_exec_dir w = None → error o = Some NameError).
Proof.
  rewrite generate_plan_mock.
  destruct (analysis_shape p) as (Hpath & [cols Hcols] & Hft).
  destruct (mock_plan_cases _ cols Hcols) as (plan & Hplan & Hinfo & Hsteps).
  assert (Hhead : ∃ rest, steps plan = load_of (_analyze_dataset p) :: rest).
  { destruct Hsteps as [(_ & Hs & _)|[(c & _ & Hs & _)|(c & c' & rest & _ & Hs & _)]];
      rewrite Hs; by eexists. }
  destruct Hhead as [rest Hhead].
  assert (Hcode : _generate_step_code (load_of (_analyze_dataset p)) = Raise NameError).
  { unfold load_of, _generate_step_code, make_step. simpl. run_monad.
    unfold dict_get_or at 1. simpl.
    by destruct Hft as [-> | ->]. }
  assert (Hnb : _create_notebook (steps plan) None = Raise NameError).
  { rewrite Hhead. unfold _create_notebook. simpl. rewrite step_cells_plain.
    run_monad. by rewrite Hcode. }
  exists plan. destruct (ExecutorFacts.execute_plan_cases w plan_id (steps plan) None)
    as [(e & Hwhy & ->) | (nb & r & _ & Hok & _)]; [|congruence].
  eexists. split; [exact Hplan|]. split; [reflexivity|]. split; [reflexivity|].
  simpl. intros Hmk.
  destruct Hwhy as [H|[[_ H]|[(_ & [nb Hok] & _)|(_ & [nb Hok] & _)]]]; congruence.
Qed.

Lemma mock_plans_never_execute_witness :
  ∃ plan o, generate_plan csv_probe [sop_document] = Ok plan ∧
            execute_plan exit1_world "p1" (steps plan) None = Ok o ∧
            status o = "failed" ∧ error o = Some NameError.
Proof.
  destruct (mock_plans_never_execute csv_probe [sop_document] exit1_world "p1")
    as (plan & o & Hplan & Hexec & Hst & Herr).
  exists plan, o. split; [exact Hplan|]. split; [exact Hexec|]. split; [exact Hst|].
  apply Herr. reflexivity.
Defined.

(* --------------------------------------------------------------------- *)
(** ** The context query *)

#[local] Arguments String.append !_ _ /.

Lemma context_query_words joined :
  split ("Dataset with columns: " +:+ joined)
  = "Dataset" :: "with" :: "columns:" :: split joined.
Proof. reflexivity. Qed.

(** X22. The query for context always starts with "Dataset with columns:", and the
    mock search matches on each word of it: any of the five documents added
    last whose text has "dataset", "with" or "columns:" in it, in whatever
    case, is returned for every dataset. When the column names cannot be
    joined the context is empty. *)
Theorem rag_context_matches_boilerplate (mock_data : list document) (info : pydict) :
  (∀ joined d,
     py_join ", " (dict_get_or "columns" (VList []) info) = Ok joined →
     d ∈ drop (length mock_data - 5) mock_data →
     is_substring "dataset" (lower (doc_text d)) || is_substring "with" (lower (doc_text d)) ||
     is_substring "columns:" (lower (doc_text d)) = true →
     to_result d ∈ _get_rag_context mock_data info) ∧
  (∀ e, py_join ", " (dict_get_or "columns" (VList []) info) = Raise e →
        _get_rag_context mock_data info = []) ∧
  length (_get_rag_context mock_data info) ≤ 5.
Proof.
  unfold _get_rag_context. split; [|split].
  - intros joined d -> Hd Hmatch.
    rewrite StoreFacts.search_positive by lia.
    apply list_elem_of_fmap. exists d. split; [done|].
    apply list_elem_of_filter. split; [|exact Hd].
    unfold keyword_match. rewrite context_query_words.
    cbn [existsb].
    change (lower "Dataset") with "dataset". change (lower "with") with "with".
    change (lower "columns:") with "columns:".
    apply orb_prop in Hmatch as [Hmatch| ->]; [|by rewrite !orb_true_r].
    apply orb_prop in Hmatch as [-> | ->]; [done|]. by rewrite orb_true_r.
  - by intros e ->.
  - destruct (py_join _ _) as [joined|]; [|simpl; lia].
    rewrite StoreFacts.search_positive by lia.
    rewrite length_fmap. etrans; [apply length_filter|]. rewrite length_drop. lia.
Qed.

Lemma rag_context_matches_boilerplate_witness :
  to_result {| doc_id := "note"; doc_text := "Buffer WITH low pH"; doc_metadata := [] |}
  ∈ _get_rag_context
      [sop_document; {| doc_id := "note"; doc_text := "Buffer WITH low pH"; doc_metadata := [] |}]
      [(KStr "columns", VList [VStr "voltage"])].
Proof.
  destruct (rag_context_matches_boilerplate
              [sop_document;
               {| doc_id := "note"; doc_text := "Buffer WITH low pH"; doc_metadata := [] |}]
              [(KStr "columns", VList [VStr "voltage"])]) as [H _].
  apply (H "voltage").
  - reflexivity.
  - apply list_elem_of_In. simpl. auto.
  - reflexivity.
Defined.

End PlannerFacts.
